(** * xpoJson2rdf: the XPO JSON to RDF converter

    A shallow embedding of [xpoJson2rdf.py].  The converter walks the parsed
    JSON document and adds triples to the module-level rdflib graph [GRAPH];
    nested records hang off blank nodes whose labels come from
    [shortuuid.uuid()].  The embedding threads the module state (the graph,
    what was printed, the number of identifiers drawn) and the one pair of
    function locals that is read after its loop has ended, and it keeps the
    Python exceptions that the subscripts, iterations and name lookups of
    [convert_generic] can raise. *)

From Stdlib Require Import String Ascii List ZArith Bool Lia.
Import ListNotations.

Local Open Scope list_scope.
Local Open Scope Z_scope.

(** Python's [+] on [str]; a [Namespace] is a [str] subclass. *)
Infix "+s+" := String.append (at level 60, right associativity).

(** ** Values produced by [json.load] *)

#[local] Unset Elimination Schemes.
Inductive json : Type :=
| JNull
| JBool (b : bool)
| JInt (n : Z)
| JFloat (lexeme : string)  (* never computed with; kept by its text *)
| JStr (s : string)
| JList (items : list json)
| JDict (items : list (string * json)). (* insertion order, as [dict.items()] *)
#[local] Set Elimination Schemes.

(** ** rdflib terms and the graph *)

Inductive term : Type :=
| URIRef (iri : string)
| BNode (label : string)
| Literal (value : json).

Definition triple : Type := (term * term * term)%type.

Definition subject_of (t : triple) : term := fst (fst t).
Definition predicate_of (t : triple) : term := snd (fst t).
Definition object_of (t : triple) : term := snd t.

(** The namespaces bound at module level. *)
Definition XPO : string := "http://purl.org/xpo/".
Definition DWD : string := "http://purl.org/dwd/".
Definition ONT : string := XPO.
Definition WD : string := "http://www.wikidata.org/wiki/".
Definition WDP : string := "http://www.wikidata.org/wiki/Property:".

(** [ns.attr] on an rdflib [Namespace]: the IRI [ns + attr]. *)
Definition ns_attr (ns attr : string) : term := URIRef (ns +s+ attr).

(** ** What [print] writes

    Each constructor is one of the f-strings of [convert_generic], with the
    values it interpolates. *)

Inductive diagnostic : Type :=
| Bad_property_values (property : string) (value : json)
| Bad_LDC_types_property (node : term) (property vname : string)
| Bad_property_values_not_a_list (property : string) (value : json)
| Bad_node_property_values_not_a_list (node : term) (property : string)
    (value : json)
| Bad_node_property_values (node : term) (property : string) (value : json)
| Unrecognized_property_with_list (type property : string) (value : json)
| Unrecognized_property (type property : string) (value : json).

(** ** Exceptions and the state that is threaded *)

Inductive exn : Type :=
| KeyError (key : string)
| TypeError
| AttributeError (attr : string)
| NameError (name : string)
| UnboundLocalError (name : string).

Inductive result (A : Type) : Type :=
| Ok (a : A)
| Raised (e : exn).
Arguments Ok {A} a.
Arguments Raised {A} e.

Record State : Type := mkState {
  GRAPH : list triple;       (* the triples passed to [GRAPH.add], in order *)
  stdout : list diagnostic;  (* the lines printed, in order *)
  uuid_calls : nat;          (* how many times [shortuuid.uuid()] was called *)
  ldc_arg_item : option (string * json)
    (* the locals [ldc_arg_name], [ldc_arg_value] of [convert_generic];
       [None] while they are unbound *)
}.

Definition initial_state : State := mkState [] [] 0%nat None.

(** rdflib's [Graph] is a set of triples: two logs hold the same graph when
    they have the same members. *)
Definition same_triples (g1 g2 : list triple) : Prop :=
  forall t, In t g1 <-> In t g2.

Definition M (A : Type) : Type := State -> State * result A.

Definition ret {A} (a : A) : M A := fun st => (st, Ok a).

Definition raise {A} (e : exn) : M A := fun st => (st, Raised e).

Definition bind {A B} (m : M A) (k : A -> M B) : M B :=
  fun st =>
    match m st with
    | (st', Ok a) => k a st'
    | (st', Raised e) => (st', Raised e)
    end.

Notation "x <- m ;; k" := (bind m (fun x => k))
  (at level 61, m at next level, right associativity).
Notation "m ;; k" := (bind m (fun _ => k))
  (at level 61, right associativity).

(** A [for] statement whose body neither breaks nor returns. *)
Fixpoint for_each {A} (l : list A) (body : A -> M unit) : M unit :=
  match l with
  | [] => ret tt
  | a :: l' => body a ;; for_each l' body
  end.

Definition GRAPH_add (t : triple) : M unit :=
  fun st =>
    (mkState (GRAPH st ++ [t]) (stdout st) (uuid_calls st) (ldc_arg_item st),
     Ok tt).

Definition print (d : diagnostic) : M unit :=
  fun st =>
    (mkState (GRAPH st) (stdout st ++ [d]) (uuid_calls st) (ldc_arg_item st),
     Ok tt).

(** The tuple target of [for (ldc_arg_name, ldc_arg_value) in ...]. *)
Definition assign_ldc_arg (name : string) (value : json) : M unit :=
  fun st =>
    (mkState (GRAPH st) (stdout st) (uuid_calls st) (Some (name, value)),
     Ok tt).

(** Reading [ldc_arg_name] (and then [ldc_arg_value]). *)
Definition read_ldc_arg : M (string * json) :=
  fun st =>
    match ldc_arg_item st with
    | Some item => (st, Ok item)
    | None => (st, Raised (UnboundLocalError "ldc_arg_name"))
    end.

(** Entering the function: its locals are unbound. *)
Definition enter_function : M unit :=
  fun st => (mkState (GRAPH st) (stdout st) (uuid_calls st) None, Ok tt).

(** ** The Python operations applied to JSON values *)

Definition dict_get (k : string) (d : list (string * json)) : option json :=
  match find (fun kv => String.eqb (fst kv) k) d with
  | Some kv => Some (snd kv)
  | None => None
  end.

(** [v[k]] for a string [k]. *)
Definition py_getitem (v : json) (k : string) : M json :=
  match v with
  | JDict d =>
      match dict_get k d with
      | Some x => ret x
      | None => raise (KeyError k)
      end
  | _ => raise TypeError
  end.

(** [v.items()]. *)
Definition py_items (v : json) : M (list (string * json)) :=
  match v with
  | JDict d => ret d
  | _ => raise (AttributeError "items")
  end.

(** A [str] is held as its UTF-8 bytes.  A byte [10xxxxxx] continues the
    character that the bytes before it began. *)
Definition is_continuation (c : ascii) : bool :=
  match c with
  | Ascii _ _ _ _ _ _ b6 b7 => b7 && negb b6
  end.

Definition starts_with_continuation (s : string) : bool :=
  match s with
  | EmptyString => false
  | String c _ => is_continuation c
  end.

(** The characters of a [str], as [for x in s] delivers them: one string per
    code point, that is, a byte with the continuation bytes that follow
    it. *)
Fixpoint chars (s : string) : list json :=
  match s with
  | EmptyString => []
  | String c s' =>
      if starts_with_continuation s'
      then match chars s' with
           | JStr t :: rest => JStr (String c t) :: rest
           | rest => JStr (String c EmptyString) :: rest
           end
      else JStr (String c EmptyString) :: chars s'
  end.

(** What [for x in v] runs over. *)
Definition py_iter (v : json) : M (list json) :=
  match v with
  | JList l => ret l
  | JStr s => ret (chars s)
  | JDict d => ret (map (fun kv => JStr (fst kv)) d)
  | _ => raise TypeError
  end.

Fixpoint is_substring (p s : string) : bool :=
  String.prefix p s ||
  match s with
  | EmptyString => false
  | String _ s' => is_substring p s'
  end.

Definition is_str (k : string) (v : json) : bool :=
  match v with
  | JStr s => String.eqb s k
  | _ => false
  end.

(** [k in v] for a string [k]. *)
Definition py_contains (k : string) (v : json) : M bool :=
  match v with
  | JDict d => ret (existsb (fun kv => String.eqb (fst kv) k) d)
  | JList l => ret (existsb (is_str k) l)
  | JStr s => ret (is_substring k s)
  | _ => raise TypeError
  end.

(** [ns + v] for a namespace [ns]. *)
Definition str_add (ns : string) (v : json) : M string :=
  match v with
  | JStr s => ret (ns +s+ s)
  | _ => raise TypeError
  end.

(** [x in [...]] for a list of string literals. *)
Definition in_strings (x : string) (l : list string) : bool :=
  existsb (String.eqb x) l.

(** The name [graph] is not bound anywhere in the module. *)
Definition lookup_graph : M unit := raise (NameError "graph").

Section Converter.

(** The value returned by the [n]-th call of [shortuuid.uuid()]; its alphabet
    is ASCII, so the five characters of [uuid()[:5]] are five bytes. *)
Variable shortuuid_uuid : nat -> string.

Definition draw_uuid : M string :=
  fun st =>
    (mkState (GRAPH st) (stdout st) (S (uuid_calls st)) (ldc_arg_item st),
     Ok (shortuuid_uuid (uuid_calls st))).

Definition bnode_label (prefix id : string) : string :=
  match prefix with
  | EmptyString => id
  | _ => prefix +s+ "_" +s+ id
  end.

Definition bnode (prefix : string) : M term :=
  u <- draw_uuid ;;
  ret (BNode (bnode_label prefix (substring 0 5 u))).

(** ** The bodies of the loops of [convert_generic] *)

Definition string_properties : list string :=
  ["type"; "comment"; "curated_by"; "description"; "wd_node"; "name";
   "wd_description"; "template"; "template_curation"; "pb_roleset"]%string.

Definition ldc_leaf_names : list string :=
  ["ldc_name"; "ldc_argument_output_value"; "dwd_arg_name"]%string.

Section Record_fields.

Variable DWD : string.   (* the parameter, which shadows the global *)
Variable type : string.
Variable node : term.    (* [URIRef(DWD+node)], rebound at line 81 *)

(* lines 91-95 *)
Definition overlay_parents_body (v : json) : M unit :=
  overlay_node <- bnode "OVERLAY" ;;
  GRAPH_add (node, ns_attr DWD "overlay", overlay_node) ;;
  wd_node <- py_getitem v "wd_node" ;;
  iri <- str_add WD wd_node ;;
  GRAPH_add (overlay_node, ns_attr DWD "overlay_parent", URIRef iri) ;;
  name <- py_getitem v "name" ;;
  GRAPH_add (overlay_node, ns_attr DWD "overlay_parent_name", Literal name).

(* lines 101-106 *)
Definition similar_nodes_body (v : json) : M unit :=
  similar_node <- bnode "SIMILAR" ;;
  GRAPH_add (node, ns_attr DWD "similarNode", similar_node) ;;
  wd_node <- py_getitem v "wd_node" ;;
  iri <- str_add WD wd_node ;;
  GRAPH_add (similar_node, ns_attr DWD "wd_node", URIRef iri) ;;
  name <- py_getitem v "name" ;;
  GRAPH_add (similar_node, ns_attr DWD "name", Literal name) ;;
  similarity_type <- py_getitem v "similarity_type" ;;
  iri' <- str_add DWD similarity_type ;;
  GRAPH_add (similar_node, ns_attr DWD "similarity_type", URIRef iri').

(* lines 127-130 *)
Definition ldc_arg_items_body (ldc_arg_node : term) (item : string * json)
  : M unit :=
  let '(ldc_arg_name, ldc_arg_value) := item in
  assign_ldc_arg ldc_arg_name ldc_arg_value ;;
  if in_strings ldc_arg_name ldc_leaf_names
  then GRAPH_add (ldc_arg_node, ns_attr DWD "ldc_code", Literal ldc_arg_value)
  else ret tt.

(* lines 132-133 *)
Definition ldc_constraints_body (ldc_arg_node : term) (ent_type : json)
  : M unit :=
  lookup_graph ;;
  GRAPH_add (ldc_arg_node, ns_attr DWD "ldc_constraint", Literal ent_type).

(* line 131: the test is made once the loop of line 127 has ended, on
   whatever the two locals hold by then *)
Definition ldc_constraints_guard (item : string * json) : bool :=
  String.eqb (fst item) "ldc_contraints".

(* lines 131-133 *)
Definition ldc_constraints_block (ldc_arg_node : term) : M unit :=
  item <- read_ldc_arg ;;
  if ldc_constraints_guard item
  then
    ent_types <- py_iter (snd item) ;;
    for_each ent_types (ldc_constraints_body ldc_arg_node)
  else ret tt.

(* lines 125-133 *)
Definition ldc_arguments_body (ldc_type_node : term) (ldc_arg : json)
  : M unit :=
  ldc_arg_node <- bnode "LDCARG" ;;
  GRAPH_add (ldc_type_node, ns_attr DWD "ldc_argument", ldc_arg_node) ;;
  items <- py_items ldc_arg ;;
  for_each items (ldc_arg_items_body ldc_arg_node) ;;
  ldc_constraints_block ldc_arg_node.

(* lines 116-135 *)
Definition ldc_type_items_body (property : string) (ldc_type_node : term)
  (item : string * json) : M unit :=
  let '(vname, vvalue) := item in
  if String.eqb vname "name" then
    GRAPH_add (ldc_type_node, ns_attr DWD "name", Literal vvalue)
  else if String.eqb vname "ldc_code" then
    GRAPH_add (ldc_type_node, ns_attr DWD "ldc_code", Literal vvalue)
  else if String.eqb vname "other_pb_rolesets" then
    pb_rolesets <- py_iter vvalue ;;
    for_each pb_rolesets (fun pb_roleset =>
      GRAPH_add (ldc_type_node, ns_attr DWD "other_pb_roleset",
                 Literal pb_roleset))
  else if String.eqb vname "ldc_arguments" then
    ldc_args <- py_iter vvalue ;;
    for_each ldc_args (ldc_arguments_body ldc_type_node)
  else
    print (Bad_LDC_types_property node property vname).

(* lines 113-135 *)
Definition ldc_types_body (property : string) (v : json) : M unit :=
  ldc_type_node <- bnode "LDCTYPE" ;;
  GRAPH_add (node, ns_attr DWD "ldc_type", ldc_type_node) ;;
  items <- py_items v ;;
  for_each items (ldc_type_items_body property ldc_type_node).

(* lines 147-150 *)
Definition constraints_body (arg_node : term) (arg_constraint : json)
  : M unit :=
  const_node <- bnode "CONSTRAINT" ;;
  GRAPH_add (arg_node, ns_attr DWD "constraint", const_node) ;;
  name <- py_getitem arg_constraint "name" ;;
  GRAPH_add (const_node, ns_attr DWD "name", Literal name) ;;
  wd_node <- py_getitem arg_constraint "wd_node" ;;
  iri <- str_add WD wd_node ;;
  GRAPH_add (const_node, ns_attr DWD "wd_node", URIRef iri).

(* lines 142-150 *)
Definition arguments_body (arg : json) : M unit :=
  arg_node <- bnode "ARG" ;;
  GRAPH_add (node, ns_attr DWD "argument", arg_node) ;;
  has_name <- py_contains "name" arg ;;
  (if has_name : bool
   then name <- py_getitem arg "name" ;;
        GRAPH_add (arg_node, ns_attr DWD "name", Literal name)
   else ret tt) ;;
  has_short_name <- py_contains "short_name" arg ;;
  (if has_short_name : bool
   then short_name <- py_getitem arg "short_name" ;;
        GRAPH_add (arg_node, ns_attr DWD "short_name", Literal short_name)
   else ret tt) ;;
  constraints <- py_getitem arg "constraints" ;;
  arg_constraints <- py_iter constraints ;;
  for_each arg_constraints (constraints_body arg_node).

(* lines 156-159 *)
Definition related_qnodes_body (v : json) : M unit :=
  wdnode <- bnode "WDNODE" ;;
  GRAPH_add (node, ns_attr DWD "related_qnode", wdnode) ;;
  wd_node <- py_getitem v "wd_node" ;;
  iri <- str_add WD wd_node ;;
  GRAPH_add (wdnode, ns_attr DWD "wd_node", URIRef iri) ;;
  name <- py_getitem v "name" ;;
  GRAPH_add (wdnode, ns_attr DWD "name", Literal name).

(* lines 83-174: the body of [for (property, value) in edges.items()] *)
Definition edges_body (item : string * json) : M unit :=
  let '(property, value) := item in
  if in_strings property string_properties then
    GRAPH_add (node, URIRef (DWD +s+ property), Literal value)
  else if String.eqb property "overlay_parents" then
    match value with
    | JList l => for_each l overlay_parents_body
    | _ => print (Bad_property_values property value)
    end
  else if String.eqb property "similar_nodes" then
    match value with
    | JList l => for_each l similar_nodes_body
    | _ => print (Bad_property_values property value)
    end
  else if String.eqb property "ldc_types" then
    match value with
    | JList l => for_each l (ldc_types_body property)
    | _ => print (Bad_property_values_not_a_list property value)
    end
  else if String.eqb property "arguments" then
    match value with
    | JList l => for_each l arguments_body
    | _ => print (Bad_node_property_values_not_a_list node property value)
    end
  else if String.eqb property "related_qnodes" then
    match value with
    | JList l => for_each l related_qnodes_body
    | _ => print (Bad_node_property_values node property value)
    end
  else
    match value with
    | JList l =>
        print (Unrecognized_property_with_list type property value) ;;
        (match l with
         | [] => ret tt   (* [if value == []: pass] *)
         | _ => ret tt
         end) ;;
        for_each l (fun v =>
          GRAPH_add (node, URIRef (DWD +s+ property), Literal v))
    | _ =>
        print (Unrecognized_property type property value) ;;
        GRAPH_add (node, URIRef (DWD +s+ property), Literal value)
    end.

End Record_fields.

(** ** [convert_generic] *)

(* lines 81-174: one record that the loop of line 77 does not break on *)
Definition record_body (DWD type : string) (item : string * json) : M unit :=
  let '(node, edges) := item in
  let node := URIRef (DWD +s+ node) in
  fields <- py_items edges ;;
  for_each fields (edges_body DWD type node).

(* lines 77-174: the loop over [data.items()], with its [break]; the result is
   the value of [count] when the loop is left *)
Fixpoint records_loop (DWD type : string) (stop : Z)
  (items : list (string * json)) (count : Z) : M Z :=
  match items with
  | [] => ret count
  | item :: rest =>
      let count := count + 1 in
      if (0 <? stop) && (stop <? count) then ret count
      else record_body DWD type item ;; records_loop DWD type stop rest count
  end.

Definition convert_generic (data : json) (DWD type : string) (stop : Z)
  : M Z :=
  enter_function ;;
  items <- py_items data ;;
  count <- records_loop DWD type stop items 0 ;;
  ret (count - 1).

End Converter.

(** The call of the script: [convert_generic(data, type=xpo_type, stop=N)]. *)
Definition convert_generic_default (uuid : nat -> string) (data : json)
  (type : string) (stop : Z) : M Z :=
  convert_generic uuid data XPO type stop.

(** ** Notions used in the statements *)

(** The five properties whose value is tested with [isinstance(value, list)]. *)
Definition list_properties : list string :=
  ["overlay_parents"; "similar_nodes"; "ldc_types"; "arguments";
   "related_qnodes"]%string.

(** The properties that [convert_generic] has a branch for. *)
Definition recognized_properties : list string :=
  string_properties ++ list_properties.

Definition isinstance_list (v : json) : bool :=
  match v with
  | JList _ => true
  | _ => false
  end.

(** The role tags passed to [bnode]. *)
Definition bnode_prefixes : list string :=
  ["OVERLAY"; "SIMILAR"; "LDCTYPE"; "LDCARG"; "ARG"; "CONSTRAINT";
   "WDNODE"]%string.

(** The label of the blank node made from the [i]-th identifier drawn. *)
Definition draw_label (uuid : nat -> string) (prefix : string) (i : nat)
  : string :=
  bnode_label prefix (substring 0 5 (uuid i)).

Fixpoint labels_from (uuid : nat -> string) (prefixes : list string) (i : nat)
  : list string :=
  match prefixes with
  | [] => []
  | p :: ps => draw_label uuid p i :: labels_from uuid ps (S i)
  end.

Definition object_label (t : triple) : list string :=
  match object_of t with
  | BNode l => [l]
  | _ => []
  end.

(** The blank nodes that are the object of an edge, one entry per edge. *)
Definition object_bnodes (g : list triple) : list string :=
  flat_map object_label g.

(** A subject is either a named node or a blank node that was already given
    its incoming edge. *)
Definition linked (seen : list string) (s : term) : Prop :=
  match s with
  | URIRef _ => True
  | BNode l => In l seen
  | Literal _ => False
  end.

Fixpoint well_linked (seen : list string) (g : list triple) : Prop :=
  match g with
  | [] => True
  | t :: g' =>
      linked seen (subject_of t) /\ well_linked (seen ++ object_label t) g'
  end.

(** The state between two statements of the converter: the blank nodes with an
    incoming edge are the ones made from the identifiers drawn so far, in the
    order of the draws, and every edge leaves a node that was linked before. *)
Record graph_inv (uuid : nat -> string) (st : State) : Prop := {
  inv_labels :
    exists ps, length ps = uuid_calls st /\
               Forall (fun p => In p bnode_prefixes) ps /\
               object_bnodes (GRAPH st) = labels_from uuid ps 0;
  inv_linked : well_linked [] (GRAPH st)
}.

(** The first [n] identifiers drawn do not collide once cut to five
    characters. *)
Definition distinct_draws (uuid : nat -> string) (n : nat) : Prop :=
  forall i j, (i < n)%nat -> (j < n)%nat ->
    substring 0 5 (uuid i) = substring 0 5 (uuid j) -> i = j.

(** A blank node occurs in a graph as the subject or the object of an edge. *)
Definition occurs (l : string) (g : list triple) : Prop :=
  exists t, In t g /\ (subject_of t = BNode l \/ object_of t = BNode l).

(** Two runs whose identifier generators deliver the same sequence from where
    each of them stands, and whose locals agree. *)
Definition synced (uuid1 uuid2 : nat -> string) (st1 st2 : State) : Prop :=
  (forall n, uuid1 (uuid_calls st1 + n)%nat = uuid2 (uuid_calls st2 + n)%nat)
  /\ ldc_arg_item st1 = ldc_arg_item st2.

(** An identifier generator for the examples: a digit and a fixed tail. *)
Definition sample_uuid (n : nat) : string :=
  String (ascii_of_nat (48 + n)) "Zk3vQ8mT2pLx9RbWc5YdH".

(** The edges added for the leaf values of an [ldc_arguments] element. *)
Definition ldc_leaf_edges (DWD : string) (ldc_arg_node : term)
  (items : list (string * json)) : list triple :=
  map (fun kv => (ldc_arg_node, ns_attr DWD "ldc_code", Literal (snd kv)))
      (filter (fun kv => in_strings (fst kv) ldc_leaf_names) items).

(** Two computations do the same from synced states: they add the same
    triples, print the same lines, end with the same result and stay
    synced. *)
Definition agree {A} (uuid1 uuid2 : nat -> string) (m1 m2 : M A) : Prop :=
  forall st1 st2, synced uuid1 uuid2 st1 st2 ->
    exists dg dd,
      GRAPH (fst (m1 st1)) = GRAPH st1 ++ dg /\
      GRAPH (fst (m2 st2)) = GRAPH st2 ++ dg /\
      stdout (fst (m1 st1)) = stdout st1 ++ dd /\
      stdout (fst (m2 st2)) = stdout st2 ++ dd /\
      synced uuid1 uuid2 (fst (m1 st1)) (fst (m2 st2)) /\
      snd (m1 st1) = snd (m2 st2).

(** A computation whose edges leave the subjects [subjects] keeps the graph
    invariant, and keeps every blank node that has its incoming edge. *)
Definition keeps_inv {A} (uuid : nat -> string) (subjects : list term)
  (m : M A) : Prop :=
  forall st,
    graph_inv uuid st ->
    Forall (linked (object_bnodes (GRAPH st))) subjects ->
    graph_inv uuid (fst (m st)) /\
    incl (object_bnodes (GRAPH st)) (object_bnodes (GRAPH (fst (m st)))).

(** Some object of the value, at any depth, has the key [k]. *)
Fixpoint has_key (k : string) (v : json) {struct v} : bool :=
  match v with
  | JList l => existsb (has_key k) l
  | JDict d =>
      existsb (fun kv => String.eqb (fst kv) k || has_key k (snd kv)) d
  | _ => false
  end.

(** The pair held by the two locals, if any, does not pass the guard of
    line 131. *)
Definition locals_pass_no_guard (st : State) : Prop :=
  match ldc_arg_item st with
  | Some item => ldc_constraints_guard item = false
  | None => True
  end.

(** A computation that keeps the locals that way and does not evaluate the
    unbound name [graph]. *)
Definition guard_never_holds {A} (m : M A) : Prop :=
  forall st, locals_pass_no_guard st ->
    locals_pass_no_guard (fst (m st)) /\
    snd (m st) <> Raised (NameError "graph").

(** ** The script around [convert_generic] *)

(** A line [Found n xpo_type] of the script, with the number of lines that
    [convert_generic] had printed before it. *)
Record found_line : Type := mkFound {
  found_n : Z;
  found_type : string;
  found_after : nat
}.

Record Script : Type := mkScript {
  module_state : State;
  found_lines : list found_line
}.

Definition initial_script : Script := mkScript initial_state [].

Definition SM (A : Type) : Type := Script -> Script * result A.

Definition sret {A} (a : A) : SM A := fun s => (s, Ok a).

Definition sbind {A B} (m : SM A) (k : A -> SM B) : SM B :=
  fun s =>
    match m s with
    | (s', Ok a) => k a s'
    | (s', Raised e) => (s', Raised e)
    end.

(** A computation on the module state, run inside the script. *)
Definition lift {A} (m : M A) : SM A :=
  fun s =>
    let (st', r) := m (module_state s) in
    (mkScript st' (found_lines s), r).

Definition print_found (n : Z) (xpo_type : string) : SM unit :=
  fun s =>
    (mkScript (module_state s)
       (found_lines s ++
        [mkFound n xpo_type (length (stdout (module_state s)))]),
     Ok tt).

(* lines 179-184; [N] is 0 at line 177 *)
Fixpoint main_loop (uuid : nat -> string) (N : Z)
  (categories : list (string * json)) : SM unit :=
  match categories with
  | [] => sret tt
  | (xpo_type, data) :: rest =>
      sbind (lift (convert_generic uuid data XPO xpo_type N)) (fun n =>
      sbind (print_found n xpo_type) (fun _ =>
      main_loop uuid N rest))
  end.

(* lines 57-61 and 177-184, from the parsed document on; the two calls of
   [GRAPH.serialize] follow a run that ends with [Ok] *)
Definition script (uuid : nat -> string) (xpo_data : json) : SM unit :=
  sbind (lift (py_getitem xpo_data "events")) (fun event =>
  sbind (lift (py_getitem xpo_data "entities")) (fun entity =>
  sbind (lift (py_getitem xpo_data "relations")) (fun relation =>
  sbind (lift (py_getitem xpo_data "temporal_relations"))
    (fun temporal_relation =>
  main_loop uuid 0
    [("event", event); ("entity", entity); ("relation", relation);
     ("temporal_relation", temporal_relation)]%string)))).

(** ** Notions used for the nested records *)

Definition isinstance_dict (v : json) : bool :=
  match v with
  | JDict _ => true
  | _ => false
  end.

(** The Wikidata identifier and the name of a reference record, when it has
    both and the identifier is a string. *)
Definition ref_fields (v : json) : option (string * json) :=
  match v with
  | JDict d =>
      match dict_get "wd_node" d, dict_get "name" d with
      | Some (JStr w), Some n => Some (w, n)
      | _, _ => None
      end
  | _ => None
  end.

Definition similar_fields (v : json) : option (string * json * string) :=
  match v with
  | JDict d =>
      match dict_get "wd_node" d, dict_get "name" d,
            dict_get "similarity_type" d with
      | Some (JStr w), Some n, Some (JStr ty) => Some (w, n, ty)
      | _, _, _ => None
      end
  | _ => None
  end.

(** The edges of a list whose element [a], met when [i] identifiers have been
    drawn, gives the edges [edges i a] and draws [draws a] identifiers. *)
Fixpoint indexed_edges {A} (edges : nat -> A -> list triple)
  (draws : A -> nat) (l : list A) (i : nat) : list triple :=
  match l with
  | [] => []
  | a :: l' => edges i a ++ indexed_edges edges draws l' (i + draws a)%nat
  end.

Fixpoint total_draws {A} (draws : A -> nat) (l : list A) : nat :=
  match l with
  | [] => 0%nat
  | a :: l' => (draws a + total_draws draws l')%nat
  end.

Definition one_draw {A} (a : A) : nat := 1%nat.

Definition overlay_edges (uuid : nat -> string) (DWD : string) (node : term)
  (i : nat) (v : json) : list triple :=
  match ref_fields v with
  | Some (w, n) =>
      let b := BNode (draw_label uuid "OVERLAY" i) in
      [(node, ns_attr DWD "overlay", b);
       (b, ns_attr DWD "overlay_parent", URIRef (WD +s+ w));
       (b, ns_attr DWD "overlay_parent_name", Literal n)]
  | None => []
  end.

Definition similar_edges (uuid : nat -> string) (DWD : string) (node : term)
  (i : nat) (v : json) : list triple :=
  match similar_fields v with
  | Some (w, n, ty) =>
      let b := BNode (draw_label uuid "SIMILAR" i) in
      [(node, ns_attr DWD "similarNode", b);
       (b, ns_attr DWD "wd_node", URIRef (WD +s+ w));
       (b, ns_attr DWD "name", Literal n);
       (b, ns_attr DWD "similarity_type", URIRef (DWD +s+ ty))]
  | None => []
  end.

Definition related_edges (uuid : nat -> string) (DWD : string) (node : term)
  (i : nat) (v : json) : list triple :=
  match ref_fields v with
  | Some (w, n) =>
      let b := BNode (draw_label uuid "WDNODE" i) in
      [(node, ns_attr DWD "related_qnode", b);
       (b, ns_attr DWD "wd_node", URIRef (WD +s+ w));
       (b, ns_attr DWD "name", Literal n)]
  | None => []
  end.

Definition constraint_edges (uuid : nat -> string) (DWD : string)
  (arg_node : term) (i : nat) (c : json) : list triple :=
  match ref_fields c with
  | Some (w, n) =>
      let k := BNode (draw_label uuid "CONSTRAINT" i) in
      [(arg_node, ns_attr DWD "constraint", k);
       (k, ns_attr DWD "name", Literal n);
       (k, ns_attr DWD "wd_node", URIRef (WD +s+ w))]
  | None => []
  end.

(** The edge for a key that an argument may lack. *)
Definition optional_edge (DWD : string) (s : term)
  (d : list (string * json)) (k : string) : list triple :=
  match dict_get k d with
  | Some x => [(s, ns_attr DWD k, Literal x)]
  | None => []
  end.

(** The constraints of an argument, when it has a list of reference records
    under ["constraints"]. *)
Definition argument_constraints (arg : json) : option (list json) :=
  match arg with
  | JDict d =>
      match dict_get "constraints" d with
      | Some (JList cs) =>
          if forallb (fun c => match ref_fields c with
                               | Some _ => true
                               | None => false
                               end) cs
          then Some cs else None
      | _ => None
      end
  | _ => None
  end.

Definition argument_edges (uuid : nat -> string) (DWD : string) (node : term)
  (i : nat) (arg : json) : list triple :=
  match arg, argument_constraints arg with
  | JDict d, Some cs =>
      let a := BNode (draw_label uuid "ARG" i) in
      (node, ns_attr DWD "argument", a)
      :: optional_edge DWD a d "name"
      ++ optional_edge DWD a d "short_name"
      ++ indexed_edges (constraint_edges uuid DWD a) one_draw cs (S i)
  | _, _ => []
  end.

Definition argument_draws (arg : json) : nat :=
  match argument_constraints arg with
  | Some cs => S (length cs)
  | None => 1%nat
  end.

(** The sub-fields of an [ldc_types] element that have a branch of their
    own. *)
Definition ldc_type_fields : list string :=
  ["name"; "ldc_code"; "other_pb_rolesets"; "ldc_arguments"]%string.

(** What the items of an [ldc_types] element give when none of them is a
    list-valued sub-field: an edge for ["name"] and ["ldc_code"], a printed
    line for the rest. *)
Definition ldc_type_simple_edges (DWD : string) (ldc_type_node : term)
  (items : list (string * json)) : list triple :=
  flat_map (fun kv =>
    if String.eqb (fst kv) "name"
    then [(ldc_type_node, ns_attr DWD "name", Literal (snd kv))]
    else if String.eqb (fst kv) "ldc_code"
    then [(ldc_type_node, ns_attr DWD "ldc_code", Literal (snd kv))]
    else []) items.

Definition ldc_type_simple_lines (node : term) (property : string)
  (items : list (string * json)) : list diagnostic :=
  flat_map (fun kv =>
    if in_strings (fst kv) ldc_type_fields then []
    else [Bad_LDC_types_property node property (fst kv)]) items.

(** An [ldc_arguments] element that the constraint block lets through: an
    object with at least one key whose last key is not the misspelt one. *)
Definition ldc_argument_passes (ldc_arg : json) : bool :=
  match ldc_arg with
  | JDict [] => false
  | JDict items =>
      negb (ldc_constraints_guard (last items (EmptyString, JNull)))
  | _ => false
  end.

Definition ldc_argument_edges (uuid : nat -> string) (DWD : string)
  (ldc_type_node : term) (i : nat) (ldc_arg : json) : list triple :=
  match ldc_arg with
  | JDict items =>
      let a := BNode (draw_label uuid "LDCARG" i) in
      (ldc_type_node, ns_attr DWD "ldc_argument", a)
      :: ldc_leaf_edges DWD a items
  | _ => []
  end.

(** The number of characters of a [str] held as UTF-8 bytes: the bytes that
    do not continue a character. *)
Fixpoint lead_bytes (s : string) : nat :=
  match s with
  | EmptyString => 0%nat
  | String c s' => ((if is_continuation c then 0 else 1) + lead_bytes s')%nat
  end.

(** No byte of the string continues a character: every character is one
    byte, as in an ASCII string. *)
Fixpoint single_bytes (s : string) : bool :=
  match s with
  | EmptyString => true
  | String c s' => negb (is_continuation c) && single_bytes s'
  end.

(** What stops the conversion of a reference record at its ["wd_node"]: the
    key is missing, or its value is not a string. *)
Definition wd_node_error (d : list (string * json)) : option exn :=
  match dict_get "wd_node" d with
  | None => Some (KeyError "wd_node")
  | Some (JStr _) => None
  | Some _ => Some TypeError
  end.

(** The state once a blank node with the role tag [prefix] has been made and
    linked to [node] by [predicate], and nothing else was added. *)
Definition linked_only (uuid : nat -> string) (DWD : string) (node : term)
  (prefix predicate : string) (st : State) : State :=
  mkState
    (GRAPH st ++
     [(node, ns_attr DWD predicate,
       BNode (draw_label uuid prefix (uuid_calls st)))])
    (stdout st) (S (uuid_calls st)) (ldc_arg_item st).

(** ** What every added triple looks like *)

(** The predicate is in the namespace [DWD], the subject is [node] or a blank
    node, and an object that is a URI is in the Wikidata namespace or in
    [DWD]. *)
Definition triple_shape (DWD : string) (node : term) (t : triple) : Prop :=
  (exists name, predicate_of t = URIRef (DWD +s+ name))
  /\ (subject_of t = node \/ exists l, subject_of t = BNode l)
  /\ (forall iri, object_of t = URIRef iri ->
        exists s, iri = WD +s+ s \/ iri = DWD +s+ s).

(** A computation that only appends triples, each of them satisfying [P]. *)
Definition adds_only {A} (P : triple -> Prop) (m : M A) : Prop :=
  forall st, exists added,
    GRAPH (fst (m st)) = GRAPH st ++ added /\ Forall P added.

(** The keys of a record collection. *)
Definition record_keys (data : json) : list string :=
  match data with
  | JDict d => map fst d
  | _ => []
  end.

(** ** Notions used for the script *)

(** The four keys the script reads from the document. *)
Definition collections : list string :=
  ["events"; "entities"; "relations"; "temporal_relations"]%string.

(** The first of the four keys, in the order the script reads them, that the
    document lacks. *)
Definition first_missing_collection (d : list (string * json))
  : option string :=
  find (fun k => match dict_get k d with
                 | Some _ => false
                 | None => true
                 end) collections.

(** The number of records under the key [k] of the document. *)
Definition collection_size (d : list (string * json)) (k : string) : Z :=
  match dict_get k d with
  | Some (JDict records) => Z.of_nat (length records)
  | _ => 0
  end.

(** What a [Found] line shows. *)
Definition found_shown (f : found_line) : Z * string :=
  (found_n f, found_type f).

(** ** The edge that links a blank node to its parent *)







(** * Properties *)

(** ** Sequencing *)

Lemma bind_ok {A B} (m : M A) (k : A -> M B) st st' a :
  m st = (st', Ok a) -> bind m k st = k a st'.
Proof. intros H. unfold bind. now rewrite H. Qed.

Lemma bind_raised {A B} (m : M A) (k : A -> M B) st st' e :
  m st = (st', Raised e) -> bind m k st = (st', Raised e).
Proof. intros H. unfold bind. now rewrite H. Qed.

Lemma for_each_cons_ok {A} (body : A -> M unit) a l st st' :
  body a st = (st', Ok tt) -> for_each (a :: l) body st = for_each l body st'.
Proof. intros H. simpl. unfold bind. now rewrite H. Qed.

Lemma for_each_cons_raised {A} (body : A -> M unit) a l st st' e :
  body a st = (st', Raised e) ->
  for_each (a :: l) body st = (st', Raised e).
Proof. intros H. simpl. unfold bind. now rewrite H. Qed.

Lemma mkState_eta st :
  mkState (GRAPH st) (stdout st) (uuid_calls st) (ldc_arg_item st) = st.
Proof. now destruct st. Qed.

(** ** The record loop and the returned count *)

Section Record_loop.

Variable uuid : nat -> string.
Variables DWD type : string.

Lemma records_loop_no_stop items : forall count st,
  records_loop uuid DWD type 0 items count st =
  (for_each items (record_body uuid DWD type) ;;
   ret (count + Z.of_nat (length items))) st.
Proof.
  induction items as [|item rest IH]; intros count st.
  - simpl. unfold bind, ret. f_equal. f_equal. lia.
  - cbn [records_loop for_each length]. cbn [Z.ltb Z.compare andb].
    unfold bind at 1 2 3.
    destruct (record_body uuid DWD type item st) as [st1 [[]|e]];
      [|reflexivity].
    rewrite IH. unfold bind.
    destruct (for_each rest (record_body uuid DWD type) st1) as [st2 [[]|e]];
      [|reflexivity].
    unfold ret. f_equal. f_equal. lia.
Qed.

Lemma records_loop_stop k (Hk : 0 < k) items : forall count st,
  0 <= count <= k ->
  k - count < Z.of_nat (length items) ->
  records_loop uuid DWD type k items count st =
  (for_each (firstn (Z.to_nat (k - count)) items) (record_body uuid DWD type) ;;
   ret (k + 1)) st.
Proof.
  induction items as [|item rest IH]; intros count st Hc Hlen.
  - simpl in Hlen. lia.
  - cbn [records_loop].
    destruct (Z.ltb_spec 0 k) as [_|]; [|lia]. cbn [andb].
    destruct (Z.ltb_spec k (count + 1)) as [Hbreak|Hgo].
    + replace (k - count) with 0 by lia.
      replace (count + 1) with (k + 1) by lia. reflexivity.
    + replace (Z.to_nat (k - count)) with (S (Z.to_nat (k - (count + 1))))
        by lia.
      cbn [firstn for_each]. unfold bind at 1 2 3.
      destruct (record_body uuid DWD type item st) as [st1 [[]|e]];
        [|reflexivity].
      rewrite IH; [reflexivity|lia|].
      cbn [length] in Hlen. lia.
Qed.

End Record_loop.

(** C10.  With [stop = 0] the call runs the body of the record loop on all [n]
    records and returns [n - 1]; with [stop = k > 0] and more than [k] records
    it runs the body on the first [k] records only and returns [k].  (An
    exception raised by a record ends either run, as the sequencing says.) *)
Theorem convert_generic_count (uuid : nat -> string)
  (records : list (string * json)) (DWD type : string) (st : State) :
  convert_generic uuid (JDict records) DWD type 0 st =
    (enter_function ;;
     for_each records (record_body uuid DWD type) ;;
     ret (Z.of_nat (length records) - 1)) st
  /\
  forall k, 0 < k -> k < Z.of_nat (length records) ->
    convert_generic uuid (JDict records) DWD type k st =
      (enter_function ;;
       for_each (firstn (Z.to_nat k) records) (record_body uuid DWD type) ;;
       ret k) st.
Proof.
  split; [|intros k Hk Hlen]; unfold convert_generic, bind;
    cbn [enter_function py_items ret].
  - rewrite records_loop_no_stop. unfold bind.
    match goal with |- context [for_each ?l ?b ?s] =>
      destruct (for_each l b s) as [st2 [[]|e]] end; reflexivity.
  - rewrite records_loop_stop by (simpl; lia).
    replace (k - 0) with k by lia. unfold bind.
    match goal with |- context [for_each ?l ?b ?s] =>
      destruct (for_each l b s) as [st2 [[]|e]] end; [|reflexivity].
    unfold ret. f_equal. f_equal. lia.
Qed.

(** Three records, stopped after two. *)
Lemma convert_generic_count_witness :
  convert_generic sample_uuid
    (JDict [("E1", JDict [("name", JStr "a")]);
            ("E2", JDict [("name", JStr "b")]);
            ("E3", JDict [("name", JStr "c")])]%string)
    XPO "event" 2 initial_state =
  (mkState
     [(URIRef "http://purl.org/xpo/E1", URIRef "http://purl.org/xpo/name",
       Literal (JStr "a"));
      (URIRef "http://purl.org/xpo/E2", URIRef "http://purl.org/xpo/name",
       Literal (JStr "b"))]%string
     [] 0%nat None, Ok 2).
Proof.
  rewrite (proj2 (convert_generic_count sample_uuid _ XPO "event"
                    initial_state) 2); [reflexivity | lia | simpl; lia].
Defined.

(** ** Single fields *)

Lemma in_strings_cons_false x a l :
  in_strings x (a :: l) = false ->
  String.eqb x a = false /\ in_strings x l = false.
Proof. unfold in_strings. simpl. apply orb_false_elim. Qed.

Lemma in_strings_In x l : In x l -> in_strings x l = true.
Proof.
  unfold in_strings. intros H. apply existsb_exists. exists x.
  split; [assumption | apply String.eqb_refl].
Qed.

Lemma for_each_GRAPH_add {A} (f : A -> triple) l : forall st,
  for_each l (fun v => GRAPH_add (f v)) st =
  (mkState (GRAPH st ++ map f l) (stdout st) (uuid_calls st)
     (ldc_arg_item st), Ok tt).
Proof.
  induction l as [|a l IH]; intros st.
  - simpl. unfold ret. now rewrite app_nil_r, mkState_eta.
  - cbn [for_each]. unfold bind. cbn [GRAPH_add]. rewrite IH.
    cbn [GRAPH stdout uuid_calls ldc_arg_item map].
    now rewrite <- app_assoc.
Qed.

Ltac split_recognized H :=
  unfold recognized_properties, string_properties, list_properties in H;
  cbn [app] in H;
  repeat (apply in_strings_cons_false in H;
          let E := fresh "E" in destruct H as [E H]).

Section Fields.

Variable uuid : nat -> string.
Variables DWD type : string.
Variable node : term.

(** The fallback arm is reached exactly by the properties no branch names. *)
Lemma edges_body_unrecognized property value :
  in_strings property recognized_properties = false ->
  edges_body uuid DWD type node (property, value) =
  match value with
  | JList l =>
      print (Unrecognized_property_with_list type property value) ;;
      ret tt ;;
      for_each l (fun v =>
        GRAPH_add (node, URIRef (DWD +s+ property), Literal v))
  | _ =>
      print (Unrecognized_property type property value) ;;
      GRAPH_add (node, URIRef (DWD +s+ property), Literal value)
  end.
Proof.
  intros H. split_recognized H.
  unfold edges_body, in_strings, string_properties. cbn [existsb].
  rewrite E, E0, E1, E2, E3, E4, E5, E6, E7, E8, E9, E10, E11, E12, E13.
  cbn [orb]. destruct value; try reflexivity.
  destruct items; reflexivity.
Qed.

End Fields.




(** C6.  A property that no branch names takes the fallback arm: a list value
    gives one literal edge per element, any other value gives one literal
    edge; either way one notice is printed, nothing is raised, and the loop
    over the fields goes on with the next field. *)
Theorem unrecognized_property_fallback (uuid : nat -> string)
  (DWD type : string) (node : term) (property : string) (value : json)
  (st : State) :
  in_strings property recognized_properties = false ->
  (forall l, value = JList l ->
     edges_body uuid DWD type node (property, value) st =
       (mkState
          (GRAPH st ++
           map (fun v => (node, URIRef (DWD +s+ property), Literal v)) l)
          (stdout st ++ [Unrecognized_property_with_list type property value])
          (uuid_calls st) (ldc_arg_item st), Ok tt))
  /\ (isinstance_list value = false ->
     edges_body uuid DWD type node (property, value) st =
       (mkState
          (GRAPH st ++ [(node, URIRef (DWD +s+ property), Literal value)])
          (stdout st ++ [Unrecognized_property type property value])
          (uuid_calls st) (ldc_arg_item st), Ok tt))
  /\ exists st',
       edges_body uuid DWD type node (property, value) st = (st', Ok tt)
       /\ forall rest,
            for_each ((property, value) :: rest)
              (edges_body uuid DWD type node) st =
            for_each rest (edges_body uuid DWD type node) st'.
Proof.
  intros H.
  assert (Hlist : forall l, value = JList l ->
     edges_body uuid DWD type node (property, value) st =
       (mkState
          (GRAPH st ++
           map (fun v => (node, URIRef (DWD +s+ property), Literal v)) l)
          (stdout st ++ [Unrecognized_property_with_list type property value])
          (uuid_calls st) (ldc_arg_item st), Ok tt)).
  { intros l ->. rewrite edges_body_unrecognized by exact H.
    unfold bind. cbn [print ret]. now rewrite for_each_GRAPH_add. }
  assert (Hscalar : isinstance_list value = false ->
     edges_body uuid DWD type node (property, value) st =
       (mkState
          (GRAPH st ++ [(node, URIRef (DWD +s+ property), Literal value)])
          (stdout st ++ [Unrecognized_property type property value])
          (uuid_calls st) (ldc_arg_item st), Ok tt)).
  { intros Hv. rewrite edges_body_unrecognized by exact H.
    destruct value; try discriminate Hv; reflexivity. }
  split; [exact Hlist|]. split; [exact Hscalar|].
  destruct (isinstance_list value) eqn:Hv.
  - destruct value; try discriminate Hv.
    eexists. split; [apply (Hlist _ eq_refl)|].
    intros rest. apply for_each_cons_ok, (Hlist _ eq_refl).
  - eexists. split; [apply (Hscalar eq_refl)|].
    intros rest. apply for_each_cons_ok, (Hscalar eq_refl).
Qed.

Lemma unrecognized_property_fallback_witness :
  edges_body sample_uuid XPO "event" (URIRef "http://purl.org/xpo/E3")
    ("foo"%string, JStr "bar") initial_state =
  (mkState
     [(URIRef "http://purl.org/xpo/E3", URIRef "http://purl.org/xpo/foo",
       Literal (JStr "bar"))]%string
     [Unrecognized_property "event" "foo" (JStr "bar")]
     0%nat None, Ok tt)
  /\ edges_body sample_uuid XPO "event" (URIRef "http://purl.org/xpo/E3")
       ("foo"%string, JList [JStr "bar"; JInt 7]) initial_state =
     (mkState
        [(URIRef "http://purl.org/xpo/E3", URIRef "http://purl.org/xpo/foo",
          Literal (JStr "bar"));
         (URIRef "http://purl.org/xpo/E3", URIRef "http://purl.org/xpo/foo",
          Literal (JInt 7))]%string
        [Unrecognized_property_with_list "event" "foo"
           (JList [JStr "bar"; JInt 7])]
        0%nat None, Ok tt).
Proof.
  split.
  - apply (proj1 (proj2 (unrecognized_property_fallback sample_uuid XPO
             "event" (URIRef "http://purl.org/xpo/E3") "foo" (JStr "bar")
             initial_state eq_refl))).
    reflexivity.
  - apply (proj1 (unrecognized_property_fallback sample_uuid XPO
             "event" (URIRef "http://purl.org/xpo/E3") "foo"
             (JList [JStr "bar"; JInt 7]) initial_state eq_refl)
             [JStr "bar"; JInt 7] eq_refl).
Defined.

(** C7 (as amended).  For a field whose value is the empty list: the five
    list-valued properties add nothing and print nothing; a property that no
    branch names adds nothing but prints the notice of the fallback arm; a
    string-valued property adds its one literal edge. *)
Theorem empty_list_value (uuid : nat -> string) (DWD type : string)
  (node : term) (property : string) (st : State) :
  (In property list_properties ->
     edges_body uuid DWD type node (property, JList []) st = (st, Ok tt))
  /\ (in_strings property recognized_properties = false ->
     edges_body uuid DWD type node (property, JList []) st =
       (mkState (GRAPH st)
          (stdout st ++
           [Unrecognized_property_with_list type property (JList [])])
          (uuid_calls st) (ldc_arg_item st), Ok tt))
  /\ (In property string_properties ->
     edges_body uuid DWD type node (property, JList []) st =
       (mkState
          (GRAPH st ++ [(node, URIRef (DWD +s+ property), Literal (JList []))])
          (stdout st) (uuid_calls st) (ldc_arg_item st), Ok tt)).
Proof.
  split; [|split].
  - unfold list_properties. cbn [In].
    intros [<-|[<-|[<-|[<-|[<-|[]]]]]]; reflexivity.
  - intros H. rewrite edges_body_unrecognized by exact H. reflexivity.
  - intros H. unfold edges_body. now rewrite (in_strings_In _ _ H).
Qed.

Lemma empty_list_value_witness :
  edges_body sample_uuid XPO "event" (URIRef "http://purl.org/xpo/E1")
    ("overlay_parents"%string, JList []) initial_state =
  (initial_state, Ok tt)
  /\ edges_body sample_uuid XPO "event" (URIRef "http://purl.org/xpo/E1")
       ("foo"%string, JList []) initial_state =
     (mkState []
        [Unrecognized_property_with_list "event" "foo" (JList [])]
        0%nat None, Ok tt)
  /\ edges_body sample_uuid XPO "event" (URIRef "http://purl.org/xpo/E1")
       ("name"%string, JList []) initial_state =
     (mkState
        [(URIRef "http://purl.org/xpo/E1", URIRef "http://purl.org/xpo/name",
          Literal (JList []))]%string
        [] 0%nat None, Ok tt).
Proof.
  pose proof (empty_list_value sample_uuid XPO "event"
                (URIRef "http://purl.org/xpo/E1")) as H.
  split; [|split].
  - apply (proj1 (H "overlay_parents"%string initial_state)).
    simpl. tauto.
  - apply (proj1 (proj2 (H "foo"%string initial_state))). reflexivity.
  - apply (proj2 (proj2 (H "name"%string initial_state))). simpl. tauto.
Defined.

(** C7 as stated fails: an empty list under a property that no branch names
    is reported. *)
Lemma empty_list_is_reported :
  convert_generic sample_uuid (JDict [("E1", JDict [("foo", JList [])])]%string)
    XPO "event" 0 initial_state =
  (mkState [] [Unrecognized_property_with_list "event" "foo" (JList [])]
     0%nat None, Ok 0).
Proof. reflexivity. Qed.

(** ** Nested records *)

(** C4.  The record [{"name": "Attack", "overlay_parents": [{"wd_node":
    "Q123", "name": "Conflict"}]}] under the key [E1] adds exactly four
    triples, in whatever namespace and with whatever [stop]: the name literal,
    the overlay edge to a blank node made from the next identifier, and the
    two edges that leave that blank node. *)
Theorem attack_record_triples (uuid : nat -> string) (DWD type : string)
  (stop : Z) (st : State) :
  let E1 := URIRef (DWD +s+ "E1") in
  let b := BNode (draw_label uuid "OVERLAY" (uuid_calls st)) in
  convert_generic uuid
    (JDict [("E1", JDict [("name", JStr "Attack");
                          ("overlay_parents",
                           JList [JDict [("wd_node", JStr "Q123");
                                         ("name", JStr "Conflict")]])])]%string)
    DWD type stop st =
  (mkState
     (GRAPH st ++
      [(E1, ns_attr DWD "name", Literal (JStr "Attack"));
       (E1, ns_attr DWD "overlay", b);
       (b, ns_attr DWD "overlay_parent", URIRef (WD +s+ "Q123"));
       (b, ns_attr DWD "overlay_parent_name", Literal (JStr "Conflict"))])
     (stdout st) (S (uuid_calls st)) None,
   Ok 0).
Proof.
  intros E1 b. unfold convert_generic, bind.
  cbn [enter_function py_items ret records_loop].
  replace ((0 <? stop) && (stop <? 0 + 1)) with false
    by (symmetry; apply andb_false_iff;
        destruct (Z.ltb_spec 0 stop); [right; apply Z.ltb_ge; lia | now left]).
  cbn. rewrite <- !app_assoc. reflexivity.
Qed.

(** The leaf values of an [ldc_arguments] element all go under [ldc_code]. *)
Lemma ldc_arg_items_body_leaf (DWD : string) (ldc_arg_node : term)
  (name : string) (value : json) (st : State) :
  In name ldc_leaf_names ->
  ldc_arg_items_body DWD ldc_arg_node (name, value) st =
  (mkState
     (GRAPH st ++ [(ldc_arg_node, ns_attr DWD "ldc_code", Literal value)])
     (stdout st) (uuid_calls st) (Some (name, value)), Ok tt).
Proof.
  intros H. unfold ldc_arg_items_body. rewrite (in_strings_In _ _ H).
  reflexivity.
Qed.

(** C2 fails on the code: the three leaf fields of an [ldc_arguments] element
    give three edges whose predicate is [ldc_code], not the name of the
    field. *)
Theorem ldc_leaf_edges_use_ldc_code :
  convert_generic sample_uuid
    (JDict [("E1", JDict [("ldc_types", JList [JDict [("ldc_arguments",
       JList [JDict [("ldc_name", JStr "Attacker");
                     ("ldc_argument_output_value", JStr "A0");
                     ("dwd_arg_name", JStr "agent")]])]])])]%string)
    XPO "event" 0 initial_state =
  (mkState
     [(URIRef "http://purl.org/xpo/E1", URIRef "http://purl.org/xpo/ldc_type",
       BNode "LDCTYPE_0Zk3v");
      (BNode "LDCTYPE_0Zk3v", URIRef "http://purl.org/xpo/ldc_argument",
       BNode "LDCARG_1Zk3v");
      (BNode "LDCARG_1Zk3v", URIRef "http://purl.org/xpo/ldc_code",
       Literal (JStr "Attacker"));
      (BNode "LDCARG_1Zk3v", URIRef "http://purl.org/xpo/ldc_code",
       Literal (JStr "A0"));
      (BNode "LDCARG_1Zk3v", URIRef "http://purl.org/xpo/ldc_code",
       Literal (JStr "agent"))]%string
     [] 2%nat (Some ("dwd_arg_name"%string, JStr "agent")), Ok 0).
Proof. reflexivity. Qed.

(** *** The constraint branch of an [ldc_arguments] element *)

Lemma for_each_ldc_arg_items (DWD : string) (ldc_arg_node : term) items :
  forall st,
  for_each items (ldc_arg_items_body DWD ldc_arg_node) st =
  (mkState (GRAPH st ++ ldc_leaf_edges DWD ldc_arg_node items) (stdout st)
     (uuid_calls st)
     (match items with
      | [] => ldc_arg_item st
      | _ => Some (last items (EmptyString, JNull))
      end), Ok tt).
Proof.
  induction items as [|[name value] rest IH]; intros st.
  - simpl. unfold ret, ldc_leaf_edges. simpl.
    now rewrite app_nil_r, mkState_eta.
  - cbn [for_each]. unfold bind.
    unfold ldc_arg_items_body at 1. unfold bind. cbn [assign_ldc_arg].
    unfold ldc_leaf_edges. cbn [filter fst snd].
    destruct (in_strings name ldc_leaf_names).
    + cbn [GRAPH_add GRAPH stdout uuid_calls ldc_arg_item]. rewrite IH.
      cbn [GRAPH stdout uuid_calls ldc_arg_item map].
      unfold ldc_leaf_edges. rewrite <- app_assoc. cbn [app].
      destruct rest; reflexivity.
    + cbn [ret]. rewrite IH.
      cbn [GRAPH stdout uuid_calls ldc_arg_item].
      destruct rest; reflexivity.
Qed.

Lemma ldc_constraints_for_each (DWD : string) (ldc_arg_node : term) ents st :
  for_each ents (ldc_constraints_body DWD ldc_arg_node) st =
  (st, match ents with [] => Ok tt | _ => Raised (NameError "graph") end).
Proof. destruct ents; reflexivity. Qed.

Lemma ldc_constraints_block_run (DWD : string) (ldc_arg_node : term) st :
  ldc_constraints_block DWD ldc_arg_node st =
  (st,
   match ldc_arg_item st with
   | None => Raised (UnboundLocalError "ldc_arg_name")
   | Some item =>
       if ldc_constraints_guard item
       then match py_iter (snd item) st with
            | (_, Ok []) => Ok tt
            | (_, Ok (_ :: _)) => Raised (NameError "graph")
            | (_, Raised e) => Raised e
            end
       else Ok tt
   end).
Proof.
  unfold ldc_constraints_block, bind, read_ldc_arg.
  destruct (ldc_arg_item st) as [item|]; [|reflexivity].
  destruct (ldc_constraints_guard item); [|reflexivity].
  destruct (snd item) as [| | | | s |l|d]; try reflexivity;
    cbn [py_iter ret]; rewrite ldc_constraints_for_each.
  - now destruct (chars s).
  - now destruct l.
  - now destruct d.
Qed.

(** *** Inputs that never use the misspelt key *)

Lemma has_key_items k d :
  has_key k (JDict d) = false ->
  Forall (fun kv => String.eqb (fst kv) k = false /\ has_key k (snd kv) = false)
         d.
Proof.
  cbn [has_key]. induction d as [|kv d IH]; intros H; constructor.
  - cbn [existsb] in H. apply orb_false_elim in H. destruct H as [H _].
    now apply orb_false_elim in H.
  - apply IH. cbn [existsb] in H. now apply orb_false_elim in H.
Qed.

Lemma has_key_elements k l :
  has_key k (JList l) = false -> Forall (fun v => has_key k v = false) l.
Proof.
  cbn [has_key]. induction l as [|v l IH]; intros H; constructor;
    cbn [existsb] in H; apply orb_false_elim in H; destruct H; auto.
Qed.

Lemma has_key_chars k s : Forall (fun v => has_key k v = false) (chars s).
Proof.
  induction s as [|c s IH]; cbn [chars]; [constructor|].
  destruct (starts_with_continuation s); [|now constructor].
  destruct (chars s) as [|[| | | |t| |] rest];
    inversion IH; subst; repeat constructor; auto.
Qed.

Section Guard.

Variable uuid : nat -> string.

Lemma gnh_same {A} (m : M A) :
  (forall st, ldc_arg_item (fst (m st)) = ldc_arg_item st /\
              snd (m st) <> Raised (NameError "graph")) ->
  guard_never_holds m.
Proof.
  intros H st Hst. destruct (H st) as [Hl Hr].
  unfold locals_pass_no_guard. now rewrite Hl.
Qed.

Lemma gnh_ret {A} (a : A) : guard_never_holds (ret a).
Proof. apply gnh_same. intros st. split; [reflexivity | discriminate]. Qed.

Lemma gnh_raise {A} e :
  e <> NameError "graph" -> guard_never_holds (@raise A e).
Proof.
  intros He. apply gnh_same. intros st. split; [reflexivity|].
  cbn. congruence.
Qed.

Lemma gnh_print d : guard_never_holds (print d).
Proof. apply gnh_same. intros st. split; [reflexivity | discriminate]. Qed.

Lemma gnh_GRAPH_add t : guard_never_holds (GRAPH_add t).
Proof. apply gnh_same. intros st. split; [reflexivity | discriminate]. Qed.

Lemma gnh_bnode prefix : guard_never_holds (bnode uuid prefix).
Proof. apply gnh_same. intros st. split; [reflexivity | discriminate]. Qed.

Lemma gnh_py_getitem v k : guard_never_holds (py_getitem v k).
Proof.
  destruct v; cbn [py_getitem]; try (apply gnh_raise; discriminate).
  destruct (dict_get k items); [apply gnh_ret | apply gnh_raise; discriminate].
Qed.

Lemma gnh_py_items v : guard_never_holds (py_items v).
Proof.
  destruct v; first [apply gnh_ret | apply gnh_raise; discriminate].
Qed.

Lemma gnh_py_iter v : guard_never_holds (py_iter v).
Proof.
  destruct v; first [apply gnh_ret | apply gnh_raise; discriminate].
Qed.

Lemma gnh_py_contains k v : guard_never_holds (py_contains k v).
Proof.
  destruct v; first [apply gnh_ret | apply gnh_raise; discriminate].
Qed.

Lemma gnh_str_add ns v : guard_never_holds (str_add ns v).
Proof.
  destruct v; first [apply gnh_ret | apply gnh_raise; discriminate].
Qed.

Lemma gnh_bind {A B} (m : M A) (k : A -> M B) :
  guard_never_holds m -> (forall a, guard_never_holds (k a)) ->
  guard_never_holds (bind m k).
Proof.
  intros Hm Hk st Hst. destruct (Hm st Hst) as [H1 Hr1]. unfold bind.
  destruct (m st) as [s1 [a|e]]; cbn [fst snd] in *;
    [now apply Hk | split; [assumption | intros E; apply Hr1; congruence]].
Qed.

Lemma gnh_bind_ret {A B} (a : A) (k : A -> M B) :
  guard_never_holds (k a) -> guard_never_holds (bind (ret a) k).
Proof. intros H st Hst. exact (H st Hst). Qed.

Lemma gnh_bind_raise {A B} e (k : A -> M B) :
  e <> NameError "graph" -> guard_never_holds (bind (raise e) k).
Proof.
  intros He st Hst. cbn. split; [assumption | congruence].
Qed.

Lemma gnh_for_each_In {A} (l : list A) (body : A -> M unit) :
  (forall a, In a l -> guard_never_holds (body a)) ->
  guard_never_holds (for_each l body).
Proof.
  induction l as [|a l IH]; intros Hb; cbn [for_each].
  - apply gnh_ret.
  - apply gnh_bind; [apply Hb; now left | intros _].
    apply IH. intros a' Ha'. apply Hb. now right.
Qed.

Lemma gnh_for_each {A} (l : list A) (body : A -> M unit) :
  (forall a, guard_never_holds (body a)) -> guard_never_holds (for_each l body).
Proof. intros Hb. apply gnh_for_each_In. auto. Qed.

(** With the guard false the block stops at the test. *)
Lemma gnh_ldc_constraints_block DWD ldc_arg_node :
  guard_never_holds (ldc_constraints_block DWD ldc_arg_node).
Proof.
  intros st Hst. rewrite ldc_constraints_block_run. cbn [fst snd].
  split; [assumption|]. unfold locals_pass_no_guard in Hst.
  destruct (ldc_arg_item st) as [item|]; [|discriminate].
  rewrite Hst. discriminate.
Qed.

Lemma gnh_ldc_arg_items_body DWD ldc_arg_node item :
  String.eqb (fst item) "ldc_contraints" = false ->
  guard_never_holds (ldc_arg_items_body DWD ldc_arg_node item).
Proof.
  destruct item as [name value]. cbn [fst]. intros Hname st _.
  unfold ldc_arg_items_body, bind. cbn [assign_ldc_arg].
  destruct (in_strings name ldc_leaf_names); cbn; split;
    solve [exact Hname | discriminate].
Qed.

Ltac gnh_step :=
  match goal with
  | |- guard_never_holds (bind _ _) => apply gnh_bind; [|intros ?]
  | |- guard_never_holds (for_each _ _) => apply gnh_for_each; intros ?
  | |- guard_never_holds (if ?b then _ else _) => destruct b
  | |- _ =>
      first [ apply gnh_ret | apply gnh_print | apply gnh_GRAPH_add
            | apply gnh_bnode | apply gnh_py_getitem | apply gnh_py_items
            | apply gnh_py_iter | apply gnh_py_contains | apply gnh_str_add ]
  end.

Lemma gnh_ldc_arguments_body DWD ldc_type_node ldc_arg :
  has_key "ldc_contraints" ldc_arg = false ->
  guard_never_holds (ldc_arguments_body uuid DWD ldc_type_node ldc_arg).
Proof.
  intros Hk. unfold ldc_arguments_body.
  apply gnh_bind; [apply gnh_bnode | intros ldc_arg_node].
  apply gnh_bind; [apply gnh_GRAPH_add | intros _].
  destruct ldc_arg; cbn [py_items];
    try (apply gnh_bind_raise; discriminate).
  apply has_key_items in Hk. rewrite Forall_forall in Hk.
  apply gnh_bind_ret.
  apply gnh_bind; [|intros _; apply gnh_ldc_constraints_block].
  apply gnh_for_each_In. intros item Hin.
  apply gnh_ldc_arg_items_body. now apply Hk.
Qed.

Lemma gnh_ldc_type_items_body DWD node property ldc_type_node item :
  has_key "ldc_contraints" (snd item) = false ->
  guard_never_holds
    (ldc_type_items_body uuid DWD node property ldc_type_node item).
Proof.
  destruct item as [vname vvalue]. cbn [snd]. intros Hk.
  unfold ldc_type_items_body.
  repeat match goal with
         | |- guard_never_holds (if ?b then _ else _) => destruct b
         end; try solve [repeat gnh_step].
  assert (Hall : forall l, (forall st, py_iter vvalue st = (st, Ok l)) ->
                 Forall (fun v => has_key "ldc_contraints" v = false) l).
  { intros l Hl. destruct vvalue; cbn in Hl;
      try (specialize (Hl initial_state); discriminate Hl).
    - specialize (Hl initial_state). injection Hl as <-. apply has_key_chars.
    - specialize (Hl initial_state). injection Hl as <-.
      now apply has_key_elements.
    - specialize (Hl initial_state). injection Hl as <-.
      apply Forall_forall. intros x Hx. apply in_map_iff in Hx.
      now destruct Hx as (kv & <- & _). }
  destruct vvalue; cbn [py_iter];
    try (apply gnh_bind_raise; discriminate);
    match goal with
    | |- guard_never_holds (bind (ret ?l) _) =>
        pose proof (Hall l (fun st => eq_refl)) as HF
    end;
    rewrite Forall_forall in HF;
    apply gnh_bind_ret; apply gnh_for_each_In; intros ldc_arg Hin;
    apply gnh_ldc_arguments_body; now apply HF.
Qed.

Lemma gnh_ldc_types_body DWD node property v :
  has_key "ldc_contraints" v = false ->
  guard_never_holds (ldc_types_body uuid DWD node property v).
Proof.
  intros Hk. unfold ldc_types_body.
  apply gnh_bind; [apply gnh_bnode | intros ldc_type_node].
  apply gnh_bind; [apply gnh_GRAPH_add | intros _].
  destruct v; cbn [py_items];
    try (apply gnh_bind_raise; discriminate).
  apply has_key_items in Hk. rewrite Forall_forall in Hk.
  apply gnh_bind_ret. apply gnh_for_each_In. intros item Hin.
  apply gnh_ldc_type_items_body. now apply Hk.
Qed.

Lemma gnh_edges_body DWD type node item :
  has_key "ldc_contraints" (snd item) = false ->
  guard_never_holds (edges_body uuid DWD type node item).
Proof.
  destruct item as [property value]. cbn [snd]. intros Hk.
  unfold edges_body.
  repeat match goal with
         | |- guard_never_holds (if ?b then _ else _) => destruct b
         end;
    try (destruct value;
         unfold overlay_parents_body, similar_nodes_body, arguments_body,
           constraints_body, related_qnodes_body;
         solve [repeat gnh_step]).
  destruct value; try apply gnh_print.
  apply has_key_elements in Hk. rewrite Forall_forall in Hk.
  apply gnh_for_each_In. intros v Hin.
  apply gnh_ldc_types_body. now apply Hk.
Qed.

Lemma gnh_record_body DWD type item :
  has_key "ldc_contraints" (snd item) = false ->
  guard_never_holds (record_body uuid DWD type item).
Proof.
  destruct item as [node edges]. cbn [snd]. intros Hk. unfold record_body.
  destruct edges; cbn [py_items];
    try (apply gnh_bind_raise; discriminate).
  apply has_key_items in Hk. rewrite Forall_forall in Hk.
  apply gnh_bind_ret. apply gnh_for_each_In. intros item Hin.
  apply gnh_edges_body. now apply Hk.
Qed.

Lemma gnh_records_loop DWD type stop items : forall count,
  Forall (fun kv => has_key "ldc_contraints" (snd kv) = false) items ->
  guard_never_holds (records_loop uuid DWD type stop items count).
Proof.
  induction items as [|item rest IH]; intros count Hall; cbn [records_loop].
  - apply gnh_ret.
  - inversion Hall; subst.
    destruct ((0 <? stop) && (stop <? count + 1)); [apply gnh_ret|].
    apply gnh_bind; [now apply gnh_record_body | intros _; now apply IH].
Qed.

(** A run on an input that never uses the misspelt key does not evaluate
    [graph], and leaves locals that do not pass the guard. *)
Lemma convert_generic_guard_never_holds data DWD type stop st :
  has_key "ldc_contraints" data = false ->
  locals_pass_no_guard (fst (convert_generic uuid data DWD type stop st)) /\
  snd (convert_generic uuid data DWD type stop st) <>
    Raised (NameError "graph").
Proof.
  intros Hk.
  assert (G : guard_never_holds
                (items <- py_items data ;;
                 count <- records_loop uuid DWD type stop items 0 ;;
                 ret (count - 1))).
  { destruct data; cbn [py_items]; try (apply gnh_bind_raise; discriminate).
    apply has_key_items in Hk. apply gnh_bind_ret.
    apply gnh_bind; [|intros count; apply gnh_ret].
    apply gnh_records_loop. eapply Forall_impl; [|exact Hk].
    now intros kv [_ H]. }
  unfold convert_generic. unfold bind at 1. cbn [enter_function].
  apply G. exact I.
Qed.

End Guard.

(** C3 (as amended).  The guard of line 131 is evaluated once the loop over
    the element's items has ended, on the pair that loop bound last.  Whatever
    the state, the block adds no triple, and it reaches the unbound name
    [graph] only if that pair is named ["ldc_contraints"].  For an element
    with at least one key the pair is the element's last item: the edges
    added are the link to the new blank node and the [ldc_code] leaves, and
    when the last key is not ["ldc_contraints"] the element is converted
    without an exception.  A run on an input none of whose objects has the key
    ["ldc_contraints"] never evaluates [graph] and ends with locals that do
    not pass the guard.  When the pair is named ["ldc_contraints"] and its
    value has a first element to iterate over, the block raises [NameError]
    on [graph]. *)
Theorem ldc_constraints_branch (uuid : nat -> string) (DWD : string)
  (ldc_type_node : term) (st : State) :
  (forall ldc_arg_node,
     fst (ldc_constraints_block DWD ldc_arg_node st) = st
     /\ (snd (ldc_constraints_block DWD ldc_arg_node st) =
           Raised (NameError "graph") ->
         exists value, ldc_arg_item st = Some ("ldc_contraints"%string, value)))
  /\
  (forall items, items <> [] ->
     let ldc_arg_node := BNode (draw_label uuid "LDCARG" (uuid_calls st)) in
     let out := ldc_arguments_body uuid DWD ldc_type_node (JDict items) st in
     fst out =
       mkState
         (GRAPH st ++
          (ldc_type_node, ns_attr DWD "ldc_argument", ldc_arg_node)
          :: ldc_leaf_edges DWD ldc_arg_node items)
         (stdout st) (S (uuid_calls st))
         (Some (last items (EmptyString, JNull)))
     /\ (snd out = Raised (NameError "graph") ->
         fst (last items (EmptyString, JNull)) = "ldc_contraints"%string)
     /\ (fst (last items (EmptyString, JNull)) <> "ldc_contraints"%string ->
         snd out = Ok tt))
  /\
  (forall data type stop,
     has_key "ldc_contraints" data = false ->
     locals_pass_no_guard (fst (convert_generic uuid data DWD type stop st))
     /\ snd (convert_generic uuid data DWD type stop st) <>
          Raised (NameError "graph"))
  /\
  (forall ldc_arg_node value ent_type rest,
     ldc_arg_item st = Some ("ldc_contraints"%string, value) ->
     py_iter value st = (st, Ok (ent_type :: rest)) ->
     ldc_constraints_block DWD ldc_arg_node st =
       (st, Raised (NameError "graph"))).
Proof.
  split; [|split; [|split]].
  - intros ldc_arg_node. rewrite ldc_constraints_block_run. cbn [fst snd].
    split; [reflexivity|].
    destruct (ldc_arg_item st) as [[name value]|]; [|discriminate].
    unfold ldc_constraints_guard. cbn [fst snd].
    destruct (String.eqb_spec name "ldc_contraints") as [->|]; [|discriminate].
    intros _. now exists value.
  - intros items Hne ldc_arg_node out. subst out.
    unfold ldc_arguments_body, bnode, bind.
    cbn [draw_uuid ret GRAPH_add py_items GRAPH stdout uuid_calls ldc_arg_item].
    fold (draw_label uuid "LDCARG" (uuid_calls st)). fold ldc_arg_node.
    rewrite for_each_ldc_arg_items, ldc_constraints_block_run.
    cbn [fst snd GRAPH stdout uuid_calls ldc_arg_item].
    destruct items as [|item0 rest]; [contradiction|].
    set (item := last (item0 :: rest) (EmptyString, JNull)).
    split; [now rewrite <- app_assoc|].
    unfold ldc_constraints_guard.
    destruct (String.eqb_spec (fst item) "ldc_contraints") as [E|E].
    + split; [intros _; exact E | intros Hn; contradiction].
    + split; [discriminate | reflexivity].
  - intros data type stop Hk. now apply convert_generic_guard_never_holds.
  - intros ldc_arg_node value ent_type rest Hitem Hiter.
    rewrite ldc_constraints_block_run, Hitem. cbn [snd]. now rewrite Hiter.
Qed.

Lemma ldc_constraints_branch_witness :
  snd (ldc_arguments_body sample_uuid XPO (BNode "LDCTYPE_0Zk3v")
         (JDict [("ldc_name", JStr "Attacker");
                 ("ldc_constraints", JList [JStr "per"])]%string)
         initial_state) = Ok tt
  /\ snd (convert_generic sample_uuid
            (JDict [("E1", JDict [("ldc_types", JList [JDict [("ldc_arguments",
               JList [JDict [("ldc_name", JStr "Attacker");
                             ("ldc_constraints", JList [JStr "per"])]])]])])]
             %string) XPO "event" 0 initial_state) <>
       Raised (NameError "graph")
  /\ ldc_constraints_block XPO (BNode "LDCARG_1Zk3v")
       (mkState [] [] 2%nat
          (Some ("ldc_contraints"%string, JList [JStr "per"]))) =
     (mkState [] [] 2%nat
        (Some ("ldc_contraints"%string, JList [JStr "per"])),
      Raised (NameError "graph")).
Proof.
  split; [|split].
  - apply (proj1 (proj2 (ldc_constraints_branch sample_uuid XPO
                           (BNode "LDCTYPE_0Zk3v") initial_state))
             [("ldc_name", JStr "Attacker");
              ("ldc_constraints", JList [JStr "per"])]%string).
    + discriminate.
    + simpl. discriminate.
  - apply (proj1 (proj2 (proj2 (ldc_constraints_branch sample_uuid XPO
                           (BNode "LDCTYPE_0Zk3v") initial_state)))).
    reflexivity.
  - apply (proj2 (proj2 (proj2 (ldc_constraints_branch sample_uuid XPO
             (BNode "LDCTYPE_0Zk3v")
             (mkState [] [] 2%nat
                (Some ("ldc_contraints"%string, JList [JStr "per"]))))))
             (BNode "LDCARG_1Zk3v") (JList [JStr "per"]) (JStr "per") []).
    + reflexivity.
    + reflexivity.
Defined.

(** C3 as stated fails: when the misspelt key comes last in the element, the
    guard holds and the name [graph] is evaluated. *)
Lemma ldc_constraints_branch_is_reached :
  convert_generic sample_uuid
    (JDict [("E1", JDict [("ldc_types", JList [JDict [("ldc_arguments",
       JList [JDict [("ldc_name", JStr "Attacker");
                     ("ldc_contraints", JList [JStr "per"])]])]])])]%string)
    XPO "event" 0 initial_state =
  (mkState
     [(URIRef "http://purl.org/xpo/E1", URIRef "http://purl.org/xpo/ldc_type",
       BNode "LDCTYPE_0Zk3v");
      (BNode "LDCTYPE_0Zk3v", URIRef "http://purl.org/xpo/ldc_argument",
       BNode "LDCARG_1Zk3v");
      (BNode "LDCARG_1Zk3v", URIRef "http://purl.org/xpo/ldc_code",
       Literal (JStr "Attacker"))]%string
     [] 2%nat (Some ("ldc_contraints"%string, JList [JStr "per"])),
   Raised (NameError "graph")).
Proof. reflexivity. Qed.

(** ** Determinism in the input and the identifier sequence *)

Section Agreement.

Variables uuid1 uuid2 : nat -> string.

Ltac conjs := repeat match goal with |- _ /\ _ => split end; auto.

Lemma agree_ret {A} (a : A) : agree uuid1 uuid2 (ret a) (ret a).
Proof.
  intros st1 st2 H. exists [], []. cbn. now rewrite !app_nil_r.
Qed.

Lemma agree_raise {A} (e : exn) : agree uuid1 uuid2 (@raise A e) (raise e).
Proof.
  intros st1 st2 H. exists [], []. cbn. now rewrite !app_nil_r.
Qed.

Lemma agree_bind {A B} (m1 m2 : M A) (k1 k2 : A -> M B) :
  agree uuid1 uuid2 m1 m2 -> (forall a, agree uuid1 uuid2 (k1 a) (k2 a)) ->
  agree uuid1 uuid2 (bind m1 k1) (bind m2 k2).
Proof.
  intros Hm Hk st1 st2 H.
  destruct (Hm st1 st2 H) as (dg & dd & G1 & G2 & O1 & O2 & Hs & Hr).
  unfold bind.
  destruct (m1 st1) as [s1 r1], (m2 st2) as [s2 r2].
  cbn [fst snd] in *. subst r2.
  destruct r1 as [a|e].
  - destruct (Hk a s1 s2 Hs) as (dg' & dd' & G1' & G2' & O1' & O2' & Hs' & Hr').
    exists (dg ++ dg'), (dd ++ dd').
    rewrite G1', G2', O1', O2', G1, G2, O1, O2, <- !app_assoc. conjs.
  - exists dg, dd. cbn [fst snd]. conjs.
Qed.

Lemma agree_for_each {A} (l : list A) (b1 b2 : A -> M unit) :
  (forall a, agree uuid1 uuid2 (b1 a) (b2 a)) ->
  agree uuid1 uuid2 (for_each l b1) (for_each l b2).
Proof.
  intros Hb. induction l as [|a l IH]; cbn [for_each].
  - apply agree_ret.
  - apply agree_bind; [apply Hb | intros _; exact IH].
Qed.

Lemma agree_GRAPH_add t : agree uuid1 uuid2 (GRAPH_add t) (GRAPH_add t).
Proof.
  intros st1 st2 H. exists [t], []. cbn. now rewrite !app_nil_r.
Qed.

Lemma agree_print d : agree uuid1 uuid2 (print d) (print d).
Proof.
  intros st1 st2 H. exists [], [d]. cbn. now rewrite !app_nil_r.
Qed.

Lemma agree_assign_ldc_arg name value :
  agree uuid1 uuid2 (assign_ldc_arg name value) (assign_ldc_arg name value).
Proof.
  intros st1 st2 [H _]. exists [], []. cbn. rewrite !app_nil_r.
  repeat split; auto.
Qed.

Lemma agree_read_ldc_arg : agree uuid1 uuid2 read_ldc_arg read_ldc_arg.
Proof.
  intros st1 st2 H. pose proof H as [Hu Hl]. exists [], [].
  unfold read_ldc_arg. rewrite Hl.
  destruct (ldc_arg_item st2) eqn:E; cbn; rewrite !app_nil_r; conjs.
Qed.

Lemma agree_bnode prefix :
  agree uuid1 uuid2 (bnode uuid1 prefix) (bnode uuid2 prefix).
Proof.
  intros st1 st2 [Hu Hl]. exists [], []. cbn. rewrite !app_nil_r.
  repeat split; auto.
  - intros n. specialize (Hu (S n)). now rewrite !Nat.add_succ_r in Hu.
  - specialize (Hu 0%nat). rewrite !Nat.add_0_r in Hu. now rewrite Hu.
Qed.

Lemma agree_py_getitem v k :
  agree uuid1 uuid2 (py_getitem v k) (py_getitem v k).
Proof.
  destruct v; cbn [py_getitem]; try apply agree_raise.
  destruct (dict_get k items); [apply agree_ret | apply agree_raise].
Qed.

Lemma agree_py_items v : agree uuid1 uuid2 (py_items v) (py_items v).
Proof. destruct v; first [apply agree_ret | apply agree_raise]. Qed.

Lemma agree_py_iter v : agree uuid1 uuid2 (py_iter v) (py_iter v).
Proof. destruct v; first [apply agree_ret | apply agree_raise]. Qed.

Lemma agree_py_contains k v :
  agree uuid1 uuid2 (py_contains k v) (py_contains k v).
Proof. destruct v; first [apply agree_ret | apply agree_raise]. Qed.

Lemma agree_str_add ns v : agree uuid1 uuid2 (str_add ns v) (str_add ns v).
Proof. destruct v; first [apply agree_ret | apply agree_raise]. Qed.

Lemma agree_lookup_graph : agree uuid1 uuid2 lookup_graph lookup_graph.
Proof. apply agree_raise. Qed.

Ltac agree_step :=
  match goal with
  | |- agree _ _ (bind _ _) (bind _ _) =>
      apply agree_bind; [|intros ?]
  | |- agree _ _ (for_each _ _) (for_each _ _) =>
      apply agree_for_each; intros ?
  | |- agree _ _ (if ?b then _ else _) _ => destruct b
  | |- agree _ _ (let '(_, _) := ?p in _) _ => destruct p
  | |- _ =>
      first [ apply agree_ret | apply agree_raise | apply agree_GRAPH_add
            | apply agree_print | apply agree_assign_ldc_arg
            | apply agree_read_ldc_arg | apply agree_bnode
            | apply agree_py_getitem | apply agree_py_items
            | apply agree_py_iter | apply agree_py_contains
            | apply agree_str_add | apply agree_lookup_graph ]
  end.

Lemma agree_edges_body DWD type node item :
  agree uuid1 uuid2 (edges_body uuid1 DWD type node item)
        (edges_body uuid2 DWD type node item).
Proof.
  destruct item as [property value]. unfold edges_body.
  repeat match goal with
         | |- agree _ _ (if ?b then _ else _) _ => destruct b
         end;
    try (destruct value);
    unfold overlay_parents_body, similar_nodes_body, ldc_types_body,
      ldc_type_items_body, ldc_arguments_body, ldc_constraints_block,
      ldc_constraints_body, ldc_arg_items_body, arguments_body,
      constraints_body, related_qnodes_body;
    repeat agree_step.
Qed.

Lemma agree_record_body DWD type item :
  agree uuid1 uuid2 (record_body uuid1 DWD type item)
    (record_body uuid2 DWD type item).
Proof.
  destruct item as [node edges]. unfold record_body.
  apply agree_bind; [apply agree_py_items | intros fields].
  apply agree_for_each. intros item. apply agree_edges_body.
Qed.

Lemma agree_records_loop DWD type stop items : forall count,
  agree uuid1 uuid2 (records_loop uuid1 DWD type stop items count)
        (records_loop uuid2 DWD type stop items count).
Proof.
  induction items as [|item rest IH]; intros count; cbn [records_loop].
  - apply agree_ret.
  - destruct ((0 <? stop) && (stop <? count + 1)); [apply agree_ret|].
    apply agree_bind; [apply agree_record_body | intros _; apply IH].
Qed.

Lemma agree_convert_generic_body data DWD type stop :
  agree uuid1 uuid2 (items <- py_items data ;;
         count <- records_loop uuid1 DWD type stop items 0 ;;
         ret (count - 1))
        (items <- py_items data ;;
         count <- records_loop uuid2 DWD type stop items 0 ;;
         ret (count - 1)).
Proof.
  apply agree_bind; [apply agree_py_items | intros items].
  apply agree_bind; [apply agree_records_loop | intros count].
  apply agree_ret.
Qed.

End Agreement.

Lemma convert_generic_agree (uuid1 uuid2 : nat -> string) (data : json)
  (DWD type : string) (stop : Z) (st1 st2 : State) :
  (forall n, uuid1 (uuid_calls st1 + n)%nat = uuid2 (uuid_calls st2 + n)%nat) ->
  exists added printed,
    GRAPH (fst (convert_generic uuid1 data DWD type stop st1)) =
      GRAPH st1 ++ added /\
    GRAPH (fst (convert_generic uuid2 data DWD type stop st2)) =
      GRAPH st2 ++ added /\
    stdout (fst (convert_generic uuid1 data DWD type stop st1)) =
      stdout st1 ++ printed /\
    stdout (fst (convert_generic uuid2 data DWD type stop st2)) =
      stdout st2 ++ printed /\
    snd (convert_generic uuid1 data DWD type stop st1) =
      snd (convert_generic uuid2 data DWD type stop st2).
Proof.
  intros Hu.
  set (s1 := mkState (GRAPH st1) (stdout st1) (uuid_calls st1) None).
  set (s2 := mkState (GRAPH st2) (stdout st2) (uuid_calls st2) None).
  assert (Hs : synced uuid1 uuid2 s1 s2) by (split; [exact Hu | reflexivity]).
  destruct (agree_convert_generic_body uuid1 uuid2 data DWD type stop s1 s2 Hs)
    as (dg & dd & G1 & G2 & O1 & O2 & _ & Hr).
  exists dg, dd. unfold convert_generic.
  unfold bind at 1. cbn [enter_function]. fold s1.
  unfold bind at 4. cbn [enter_function]. fold s2.
  repeat split; assumption.
Qed.

(** C8.  Two runs of [convert_generic] on the same input, with identifier
    generators that deliver the same sequence from where each run starts and
    with graphs that hold the same triples, end with graphs that hold the
    same triples and with the same result; the triples the two runs add are
    the same, in the same order. *)
Theorem convert_generic_deterministic (uuid1 uuid2 : nat -> string)
  (data : json) (DWD type : string) (stop : Z) (st1 st2 : State) :
  (forall n, uuid1 (uuid_calls st1 + n)%nat = uuid2 (uuid_calls st2 + n)%nat) ->
  same_triples (GRAPH st1) (GRAPH st2) ->
  same_triples (GRAPH (fst (convert_generic uuid1 data DWD type stop st1)))
               (GRAPH (fst (convert_generic uuid2 data DWD type stop st2)))
  /\ snd (convert_generic uuid1 data DWD type stop st1) =
     snd (convert_generic uuid2 data DWD type stop st2)
  /\ exists added,
       GRAPH (fst (convert_generic uuid1 data DWD type stop st1)) =
         GRAPH st1 ++ added /\
       GRAPH (fst (convert_generic uuid2 data DWD type stop st2)) =
         GRAPH st2 ++ added.
Proof.
  intros Hu Hg.
  destruct (convert_generic_agree uuid1 uuid2 data DWD type stop st1 st2 Hu)
    as (added & printed & G1 & G2 & _ & _ & Hr).
  split; [|split; [exact Hr | now exists added]].
  rewrite G1, G2. intros t. rewrite !in_app_iff. now rewrite (Hg t).
Qed.

(** A second run over the graph the first run left, with the generator set
    back to the sequence of the first run, leaves the set of triples as it
    was. *)
Lemma convert_generic_rerun (uuid uuid' : nat -> string) (data : json)
  (DWD type : string) (stop : Z) (st : State) :
  let st1 := fst (convert_generic uuid data DWD type stop st) in
  (forall n, uuid (uuid_calls st + n)%nat = uuid' (uuid_calls st1 + n)%nat) ->
  same_triples (GRAPH (fst (convert_generic uuid' data DWD type stop st1)))
               (GRAPH st1).
Proof.
  intros st1 Hu.
  destruct (convert_generic_agree uuid uuid' data DWD type stop st st1 Hu)
    as (added & printed & G1 & G2 & _ & _ & Hr).
  fold st1 in G1. rewrite G2, G1. intros t. rewrite !in_app_iff. tauto.
Qed.

Lemma convert_generic_deterministic_witness :
  same_triples
    (GRAPH (fst (convert_generic sample_uuid
       (JDict [("E2", JDict [("similar_nodes",
          JList [JDict [("wd_node", JStr "Q9"); ("name", JStr "X");
                        ("similarity_type", JStr "exact")]])])]%string)
       XPO "event" 0 initial_state)))
    (GRAPH (fst (convert_generic (fun n => sample_uuid (n - 4))
       (JDict [("E2", JDict [("similar_nodes",
          JList [JDict [("wd_node", JStr "Q9"); ("name", JStr "X");
                        ("similarity_type", JStr "exact")]])])]%string)
       XPO "event" 0 (mkState [] [] 4%nat None)))).
Proof.
  apply (convert_generic_deterministic sample_uuid
           (fun n => sample_uuid (n - 4)) _ XPO "event" 0 initial_state
           (mkState [] [] 4%nat None)).
  - intros n. simpl. f_equal. lia.
  - intros t. simpl. tauto.
Defined.

(** ** Blank nodes and their incoming edge *)

Lemma object_bnodes_app g g' :
  object_bnodes (g ++ g') = object_bnodes g ++ object_bnodes g'.
Proof. unfold object_bnodes. apply flat_map_app. Qed.

Lemma object_bnodes_snoc g t :
  object_bnodes (g ++ [t]) = object_bnodes g ++ object_label t.
Proof.
  rewrite object_bnodes_app. unfold object_bnodes at 2. simpl.
  now rewrite app_nil_r.
Qed.

Lemma linked_incl seen seen' s :
  incl seen seen' -> linked seen s -> linked seen' s.
Proof. destruct s; simpl; auto. Qed.

Lemma well_linked_snoc g t : forall seen,
  well_linked seen (g ++ [t]) <->
  well_linked seen g /\ linked (seen ++ object_bnodes g) (subject_of t).
Proof.
  induction g as [|t0 g IH]; intros seen; simpl.
  - rewrite app_nil_r. tauto.
  - rewrite IH. unfold object_bnodes. simpl.
    fold (object_bnodes g). rewrite app_assoc. tauto.
Qed.

Lemma well_linked_In g t : forall seen,
  well_linked seen g -> In t g ->
  linked (seen ++ object_bnodes g) (subject_of t).
Proof.
  induction g as [|t0 g IH]; intros seen Hw Hin; [contradiction|].
  destruct Hw as [H0 Hw]. unfold object_bnodes. simpl.
  fold (object_bnodes g). destruct Hin as [<-|Hin].
  - eapply linked_incl; [|exact H0]. apply incl_appl, incl_refl.
  - rewrite app_assoc. now apply IH.
Qed.

Lemma labels_from_app uuid ps p : forall i,
  labels_from uuid (ps ++ [p]) i =
  labels_from uuid ps i ++ [draw_label uuid p (i + length ps)].
Proof.
  induction ps as [|q ps IH]; intros i; simpl.
  - now rewrite Nat.add_0_r.
  - rewrite IH. now rewrite Nat.add_succ_r.
Qed.

Lemma labels_from_length uuid ps : forall i,
  length (labels_from uuid ps i) = length ps.
Proof. induction ps; intros i; simpl; auto. Qed.

Lemma labels_from_In uuid ps l : forall i,
  In l (labels_from uuid ps i) ->
  exists p j,
    In p ps /\ (i <= j < i + length ps)%nat /\ l = draw_label uuid p j.
Proof.
  induction ps as [|q ps IH]; intros i H; [contradiction|].
  destruct H as [<-|H].
  - exists q, i. simpl. repeat split; auto; lia.
  - destruct (IH _ H) as (p & j & Hp & Hj & ->).
    exists p, j. simpl. repeat split; auto; lia.
Qed.

Lemma initial_state_inv uuid : graph_inv uuid initial_state.
Proof.
  split; [|exact I]. exists []. simpl. repeat split. constructor.
Qed.

Section Invariant.

Variable uuid : nat -> string.

Lemma keeps_same {A} subjects (m : M A) :
  (forall st, GRAPH (fst (m st)) = GRAPH st /\
              uuid_calls (fst (m st)) = uuid_calls st) ->
  keeps_inv uuid subjects m.
Proof.
  intros H st [Hl Hw] _. destruct (H st) as [Hg Hc].
  split; [split|]; rewrite ?Hg, ?Hc; auto using incl_refl.
Qed.

Lemma keeps_ret {A} subjects (a : A) : keeps_inv uuid subjects (ret a).
Proof. apply keeps_same. now intros st. Qed.

Lemma keeps_raise {A} subjects e : keeps_inv uuid subjects (@raise A e).
Proof. apply keeps_same. now intros st. Qed.

Lemma keeps_print subjects d : keeps_inv uuid subjects (print d).
Proof. apply keeps_same. now intros st. Qed.

Lemma keeps_assign_ldc_arg subjects name value :
  keeps_inv uuid subjects (assign_ldc_arg name value).
Proof. apply keeps_same. now intros st. Qed.

Lemma keeps_read_ldc_arg subjects : keeps_inv uuid subjects read_ldc_arg.
Proof.
  apply keeps_same. intros st. unfold read_ldc_arg.
  now destruct (ldc_arg_item st).
Qed.

Lemma keeps_enter_function subjects : keeps_inv uuid subjects enter_function.
Proof. apply keeps_same. now intros st. Qed.

Lemma keeps_py_getitem subjects v k : keeps_inv uuid subjects (py_getitem v k).
Proof.
  destruct v; cbn [py_getitem]; try apply keeps_raise.
  destruct (dict_get k items); [apply keeps_ret | apply keeps_raise].
Qed.

Lemma keeps_py_items subjects v : keeps_inv uuid subjects (py_items v).
Proof. destruct v; first [apply keeps_ret | apply keeps_raise]. Qed.

Lemma keeps_py_iter subjects v : keeps_inv uuid subjects (py_iter v).
Proof. destruct v; first [apply keeps_ret | apply keeps_raise]. Qed.

Lemma keeps_py_contains subjects k v :
  keeps_inv uuid subjects (py_contains k v).
Proof. destruct v; first [apply keeps_ret | apply keeps_raise]. Qed.

Lemma keeps_str_add subjects ns v : keeps_inv uuid subjects (str_add ns v).
Proof. destruct v; first [apply keeps_ret | apply keeps_raise]. Qed.

Lemma keeps_lookup_graph subjects : keeps_inv uuid subjects lookup_graph.
Proof. apply keeps_raise. Qed.

Lemma keeps_bind {A B} subjects (m : M A) (k : A -> M B) :
  keeps_inv uuid subjects m ->
  (forall a, keeps_inv uuid subjects (k a)) ->
  keeps_inv uuid subjects (bind m k).
Proof.
  intros Hm Hk st Hinv Hs. destruct (Hm st Hinv Hs) as [Hinv1 Hincl1].
  unfold bind. destruct (m st) as [s1 [a|e]]; cbn [fst] in *; [|auto].
  destruct (Hk a s1 Hinv1) as [Hinv2 Hincl2].
  - eapply Forall_impl; [|exact Hs]. intros s. now apply linked_incl.
  - split; [assumption | eapply incl_tran; eassumption].
Qed.

Lemma keeps_for_each {A} subjects (l : list A) (body : A -> M unit) :
  (forall a, keeps_inv uuid subjects (body a)) ->
  keeps_inv uuid subjects (for_each l body).
Proof.
  intros Hb. induction l as [|a l IH]; cbn [for_each].
  - apply keeps_ret.
  - apply keeps_bind; [apply Hb | intros _; exact IH].
Qed.

(** An edge to a URI or a literal, leaving a subject that is linked. *)
Lemma keeps_add_leaf subjects s p o :
  In s subjects -> object_label (s, p, o) = [] ->
  keeps_inv uuid subjects (GRAPH_add (s, p, o)).
Proof.
  intros Hs Ho st [Hl Hw] HS. cbn [GRAPH_add fst GRAPH uuid_calls].
  rewrite object_bnodes_snoc, Ho, app_nil_r.
  split; [split|apply incl_refl]; cbn [GRAPH uuid_calls].
  - now rewrite object_bnodes_snoc, Ho, app_nil_r.
  - apply well_linked_snoc. split; [assumption|].
    cbn [app]. unfold subject_of. cbn [fst].
    rewrite Forall_forall in HS. now apply HS.
Qed.

(** A new blank node, its incoming edge at once, and then edges that may leave
    it. *)
Lemma keeps_new_node {A} subjects prefix s p (k : term -> M A) :
  In s subjects -> In prefix bnode_prefixes ->
  (forall b, keeps_inv uuid (b :: subjects) (k b)) ->
  keeps_inv uuid subjects
    (b <- bnode uuid prefix ;; GRAPH_add (s, p, b) ;; k b).
Proof.
  intros Hs Hp Hk st [Hl Hw] HS.
  set (lab := draw_label uuid prefix (uuid_calls st)).
  set (st2 := mkState (GRAPH st ++ [(s, p, BNode lab)]) (stdout st)
                (S (uuid_calls st)) (ldc_arg_item st)).
  change ((b <- bnode uuid prefix ;; GRAPH_add (s, p, b) ;; k b) st)
    with (k (BNode lab) st2).
  assert (Hobj : object_bnodes (GRAPH st2) = object_bnodes (GRAPH st) ++ [lab]).
  { unfold st2. cbn [GRAPH]. now rewrite object_bnodes_snoc. }
  assert (Hinv2 : graph_inv uuid st2).
  { split.
    - destruct Hl as (ps & Hlen & Hall & Hobjs). exists (ps ++ [prefix]).
      rewrite Hobj, labels_from_app, Hobjs, Hlen, length_app.
      unfold st2, lab. cbn [uuid_calls length]. repeat split.
      + lia.
      + apply Forall_app. split; [assumption|]. now constructor.
    - unfold st2. cbn [GRAPH]. apply well_linked_snoc. split; [assumption|].
      cbn [app]. unfold subject_of. cbn [fst].
      rewrite Forall_forall in HS. now apply HS. }
  destruct (Hk (BNode lab) st2 Hinv2) as [Hinv3 Hincl3].
  - constructor.
    + cbn [linked]. rewrite Hobj. apply in_or_app. right. now left.
    + eapply Forall_impl; [|exact HS]. intros s0. apply linked_incl.
      rewrite Hobj. apply incl_appl, incl_refl.
  - split; [assumption|]. eapply incl_tran; [|exact Hincl3].
    rewrite Hobj. apply incl_appl, incl_refl.
Qed.

Ltac keeps_step :=
  match goal with
  | |- keeps_inv _ _ (bind (bnode _ _) _) =>
      apply keeps_new_node; [simpl; tauto | simpl; tauto | intros ?]
  | |- keeps_inv _ _ (GRAPH_add _) =>
      apply keeps_add_leaf; [simpl; tauto | reflexivity]
  | |- keeps_inv _ _ (bind _ _) => apply keeps_bind; [|intros ?]
  | |- keeps_inv _ _ (for_each _ _) => apply keeps_for_each; intros ?
  | |- keeps_inv _ _ (if ?b then _ else _) => destruct b
  | |- keeps_inv _ _ (let '(_, _) := ?p in _) => destruct p
  | |- _ =>
      first [ apply keeps_ret | apply keeps_raise | apply keeps_print
            | apply keeps_assign_ldc_arg | apply keeps_read_ldc_arg
            | apply keeps_py_getitem | apply keeps_py_items
            | apply keeps_py_iter | apply keeps_py_contains
            | apply keeps_str_add | apply keeps_lookup_graph ]
  end.

Lemma keeps_edges_body DWD type node item :
  keeps_inv uuid [node] (edges_body uuid DWD type node item).
Proof.
  destruct item as [property value]. unfold edges_body.
  repeat match goal with
         | |- keeps_inv _ _ (if ?b then _ else _) => destruct b
         end;
    try (destruct value);
    unfold overlay_parents_body, similar_nodes_body, ldc_types_body,
      ldc_type_items_body, ldc_arguments_body, ldc_constraints_block,
      ldc_constraints_body, ldc_arg_items_body, arguments_body,
      constraints_body, related_qnodes_body;
    repeat keeps_step.
Qed.

Lemma keeps_record_body DWD type item :
  keeps_inv uuid [] (record_body uuid DWD type item).
Proof.
  destruct item as [node edges]. unfold record_body.
  apply keeps_bind; [apply keeps_py_items | intros fields].
  apply keeps_for_each. intros item st Hinv _.
  apply (keeps_edges_body DWD type (URIRef (DWD +s+ node)) item st Hinv).
  constructor; [exact I | constructor].
Qed.

Lemma keeps_records_loop DWD type stop items : forall count,
  keeps_inv uuid [] (records_loop uuid DWD type stop items count).
Proof.
  induction items as [|item rest IH]; intros count; cbn [records_loop].
  - apply keeps_ret.
  - destruct ((0 <? stop) && (stop <? count + 1)); [apply keeps_ret|].
    apply keeps_bind; [apply keeps_record_body | intros _; apply IH].
Qed.

Lemma keeps_convert_generic data DWD type stop :
  keeps_inv uuid [] (convert_generic uuid data DWD type stop).
Proof.
  unfold convert_generic.
  apply keeps_bind; [apply keeps_enter_function | intros _].
  apply keeps_bind; [apply keeps_py_items | intros items].
  apply keeps_bind; [apply keeps_records_loop | intros count].
  apply keeps_ret.
Qed.

End Invariant.

Lemma bnode_label_inj p p' a a' :
  In p bnode_prefixes -> In p' bnode_prefixes ->
  bnode_label p a = bnode_label p' a' -> a = a'.
Proof.
  unfold bnode_prefixes. cbn [In].
  intros [<-|[<-|[<-|[<-|[<-|[<-|[<-|[]]]]]]]]
         [<-|[<-|[<-|[<-|[<-|[<-|[<-|[]]]]]]]];
    cbn; intros H; congruence.
Qed.

Lemma NoDup_app_disjoint {A} (l1 l2 : list A) x :
  NoDup (l1 ++ l2) -> In x l1 -> In x l2 -> False.
Proof.
  induction l1 as [|a l1 IH]; intros Hnd H1 H2; [contradiction|].
  simpl in Hnd. inversion Hnd as [|? ? Hnotin Hnd']; subst.
  destruct H1 as [->|H1].
  - apply Hnotin. apply in_or_app. now right.
  - now apply IH.
Qed.

Lemma NoDup_app_l {A} (l1 l2 : list A) : NoDup (l1 ++ l2) -> NoDup l1.
Proof.
  induction l1 as [|a l1 IH]; intros H; [constructor|].
  simpl in H. inversion H as [|? ? Hnotin Hnd]; subst. constructor.
  - intros Hin. apply Hnotin. apply in_or_app. now left.
  - now apply IH.
Qed.

Lemma NoDup_app_r {A} (l1 l2 : list A) : NoDup (l1 ++ l2) -> NoDup l2.
Proof.
  induction l1 as [|a l1 IH]; intros H; [exact H|].
  simpl in H. inversion H; subst. now apply IH.
Qed.

Lemma object_label_In t l : In l (object_label t) <-> object_of t = BNode l.
Proof.
  unfold object_label. destruct (object_of t); simpl; split; intros H;
    try contradiction; try discriminate.
  - destruct H as [->|[]]. reflexivity.
  - left. congruence.
Qed.

Lemma object_bnodes_In g l :
  In l (object_bnodes g) <-> exists t, In t g /\ object_of t = BNode l.
Proof.
  unfold object_bnodes. rewrite in_flat_map.
  split; intros (t & Ht & H); exists t; split; auto; now apply object_label_In.
Qed.

Lemma labels_from_NoDup uuid ps : forall i,
  Forall (fun p => In p bnode_prefixes) ps ->
  distinct_draws uuid (i + length ps) ->
  NoDup (labels_from uuid ps i).
Proof.
  induction ps as [|p ps IH]; intros i Hall Hd; [constructor|].
  inversion Hall as [|? ? Hp Hall']; subst. cbn [labels_from]. constructor.
  - intros Hin. apply labels_from_In in Hin.
    destruct Hin as (p' & j & Hp' & Hj & E).
    rewrite Forall_forall in Hall'.
    apply bnode_label_inj in E; [|assumption|now apply Hall'].
    apply Hd in E; cbn [length]; lia.
  - apply IH; [assumption|]. cbn [length] in Hd.
    now rewrite Nat.add_succ_l, <- Nat.add_succ_r.
Qed.

Lemma labels_from_nth uuid ps : forall i j,
  (i <= j < i + length ps)%nat ->
  exists p, In p ps /\ In (draw_label uuid p j) (labels_from uuid ps i).
Proof.
  induction ps as [|p ps IH]; intros i j Hj; cbn [length] in Hj; [lia|].
  destruct (Nat.eq_dec i j) as [->|Hne].
  - exists p. simpl. auto.
  - destruct (IH (S i) j) as (q & Hq & Hin); [lia|].
    exists q. simpl. auto.
Qed.

Lemma unique_incoming_edge g l t t' :
  NoDup (object_bnodes g) ->
  In t g -> In t' g -> object_of t = BNode l -> object_of t' = BNode l ->
  t' = t.
Proof.
  induction g as [|t0 g IH]; intros Hnd Ht Ht' Ho Ho'; [contradiction|].
  unfold object_bnodes in Hnd. cbn [flat_map] in Hnd.
  fold (object_bnodes g) in Hnd.
  destruct Ht as [->|Ht], Ht' as [->|Ht'].
  - reflexivity.
  - exfalso. apply (NoDup_app_disjoint _ _ l Hnd).
    + now apply object_label_In.
    + apply object_bnodes_In. now exists t'.
  - exfalso. apply (NoDup_app_disjoint _ _ l Hnd).
    + now apply object_label_In.
    + apply object_bnodes_In. now exists t.
  - apply IH; auto. now apply NoDup_app_r in Hnd.
Qed.

Lemma no_self_loop g l t : forall seen,
  well_linked seen g -> NoDup (seen ++ object_bnodes g) ->
  In t g -> object_of t = BNode l -> subject_of t <> BNode l.
Proof.
  induction g as [|t0 g IH]; intros seen Hw Hnd Ht Ho; [contradiction|].
  destruct Hw as [H0 Hw].
  unfold object_bnodes in Hnd. cbn [flat_map] in Hnd.
  fold (object_bnodes g) in Hnd.
  destruct Ht as [->|Ht].
  - intros Hs. rewrite Hs in H0. cbn [linked] in H0.
    apply (NoDup_app_disjoint _ _ l Hnd); [assumption|].
    apply in_or_app. left. now apply object_label_In.
  - apply (IH (seen ++ object_label t0)); auto. now rewrite <- app_assoc.
Qed.

(** What the invariant gives once the identifiers drawn are distinct. *)
Lemma one_incoming_edge_of_inv uuid st :
  graph_inv uuid st ->
  distinct_draws uuid (uuid_calls st) ->
  (forall l, occurs l (GRAPH st) ->
     exists t, In t (GRAPH st) /\ object_of t = BNode l /\
               subject_of t <> BNode l /\
               forall t', In t' (GRAPH st) -> object_of t' = BNode l -> t' = t)
  /\ (forall i, (i < uuid_calls st)%nat ->
        exists p, In p bnode_prefixes /\
                  In (draw_label uuid p i) (object_bnodes (GRAPH st)))
  /\ NoDup (object_bnodes (GRAPH st))
  /\ length (object_bnodes (GRAPH st)) = uuid_calls st.
Proof.
  intros [(ps & Hlen & Hall & Hobjs) Hw] Hd.
  assert (Hnd : NoDup (object_bnodes (GRAPH st))).
  { rewrite Hobjs. apply labels_from_NoDup; [assumption|]. now rewrite Hlen. }
  split; [|split; [|split]].
  - intros l (t0 & Ht0 & Hocc).
    assert (Hin : In l (object_bnodes (GRAPH st))).
    { destruct Hocc as [Hs|Ho].
      - pose proof (well_linked_In _ _ _ Hw Ht0) as H.
        rewrite Hs in H. exact H.
      - apply object_bnodes_In. now exists t0. }
    apply object_bnodes_In in Hin. destruct Hin as (t & Ht & Ho).
    exists t. repeat split; auto.
    + now apply (no_self_loop (GRAPH st) l t []).
    + intros t' Ht' Ho'. now apply (unique_incoming_edge (GRAPH st) l).
  - intros i Hi. rewrite Hobjs.
    destruct (labels_from_nth uuid ps 0 i) as (p & Hp & Hin); [lia|].
    exists p. split; [|assumption].
    rewrite Forall_forall in Hall. now apply Hall.
  - exact Hnd.
  - now rewrite Hobjs, labels_from_length.
Qed.




(** * The rest of the converter *)

(** ** The record loop, continued *)

Lemma for_each_app {A} (body : A -> M unit) l1 l2 : forall st,
  for_each (l1 ++ l2) body st = (for_each l1 body ;; for_each l2 body) st.
Proof.
  induction l1 as [|a l1 IH]; intros st.
  - reflexivity.
  - cbn [app for_each]. unfold bind.
    destruct (body a st) as [st1 [[]|e]]; [|reflexivity].
    rewrite IH. reflexivity.
Qed.

Lemma for_each_ext_In {A} (f g : A -> M unit) l :
  (forall a st, In a l -> f a st = g a st) ->
  forall st, for_each l f st = for_each l g st.
Proof.
  induction l as [|a l IH]; intros H st; [reflexivity|].
  cbn [for_each]. unfold bind. rewrite (H a st) by now left.
  destruct (g a st) as [st1 [[]|e]]; [|reflexivity].
  apply IH. intros a' st' Ha'. apply H. now right.
Qed.

Lemma records_loop_no_break (uuid : nat -> string) (DWD type : string)
  (stop : Z) items : forall count st,
  0 <= count ->
  stop <= 0 \/ count + Z.of_nat (length items) <= stop ->
  records_loop uuid DWD type stop items count st =
  (for_each items (record_body uuid DWD type) ;;
   ret (count + Z.of_nat (length items))) st.
Proof.
  induction items as [|item rest IH]; intros count st Hc Hs.
  - simpl. unfold bind, ret. f_equal. f_equal. lia.
  - cbn [records_loop for_each].
    replace ((0 <? stop) && (stop <? count + 1)) with false.
    2:{ symmetry. apply andb_false_iff. cbn [length] in Hs.
        destruct Hs as [Hs|Hs]; [left|right]; apply Z.ltb_ge; lia. }
    unfold bind at 1 2 3.
    destruct (record_body uuid DWD type item st) as [st1 [[]|e]];
      [|reflexivity].
    rewrite IH; [|lia|cbn [length] in Hs; lia]. unfold bind.
    destruct (for_each rest (record_body uuid DWD type) st1)
      as [st2 [[]|e]]; [|reflexivity].
    unfold ret. f_equal. f_equal. cbn [length]. lia.
Qed.

(** X1.  When [stop] is negative, or at least the number [n] of records, the
    loop never breaks: every record is converted and [n - 1] is returned, as
    with [stop = 0]. *)
Theorem convert_generic_without_break (uuid : nat -> string)
  (records : list (string * json)) (DWD type : string) (stop : Z)
  (st : State) :
  stop <= 0 \/ Z.of_nat (length records) <= stop ->
  convert_generic uuid (JDict records) DWD type stop st =
    (enter_function ;;
     for_each records (record_body uuid DWD type) ;;
     ret (Z.of_nat (length records) - 1)) st.
Proof.
  intros Hs. unfold convert_generic, bind.
  cbn [enter_function py_items ret].
  rewrite records_loop_no_break by (try lia; simpl; lia).
  unfold bind.
  match goal with |- context [for_each ?l ?b ?s] =>
    destruct (for_each l b s) as [st2 [[]|e]] end; reflexivity.
Qed.

Lemma convert_generic_without_break_witness :
  convert_generic sample_uuid
    (JDict [("E1", JDict [("name", JStr "a")]);
            ("E2", JDict [("name", JStr "b")])]%string)
    XPO "event" 2 initial_state =
  (mkState
     [(URIRef "http://purl.org/xpo/E1", URIRef "http://purl.org/xpo/name",
       Literal (JStr "a"));
      (URIRef "http://purl.org/xpo/E2", URIRef "http://purl.org/xpo/name",
       Literal (JStr "b"))]%string
     [] 0%nat None, Ok 1).
Proof.
  rewrite (convert_generic_without_break sample_uuid _ XPO "event" 2
             initial_state); [reflexivity | right; simpl; lia].
Defined.

(** X2.  A collection that is not an object raises [AttributeError] before
    anything is done.  A record that is not an object raises it when the loop
    reaches it: the records before it stay converted, the records after it
    are not looked at. *)
Theorem non_object_raises_AttributeError (uuid : nat -> string)
  (DWD type : string) (st : State) :
  (forall data stop,
     isinstance_dict data = false ->
     convert_generic uuid data DWD type stop st =
       (mkState (GRAPH st) (stdout st) (uuid_calls st) None,
        Raised (AttributeError "items")))
  /\
  (forall before key value after,
     isinstance_dict value = false ->
     convert_generic uuid (JDict (before ++ (key, value) :: after))
       DWD type 0 st =
       (enter_function ;;
        for_each before (record_body uuid DWD type) ;;
        raise (AttributeError "items")) st).
Proof.
  split.
  - intros data stop Hd. destruct data; try discriminate Hd; reflexivity.
  - intros before key value after Hv.
    unfold convert_generic, bind. cbn [enter_function py_items ret].
    rewrite records_loop_no_stop. unfold bind.
    rewrite for_each_app. unfold bind.
    match goal with |- context [for_each before ?b ?s] =>
      destruct (for_each before b s) as [st1 [[]|e]] end; [|reflexivity].
    cbn [for_each]. unfold bind.
    destruct value; try discriminate Hv; reflexivity.
Qed.

Lemma non_object_raises_AttributeError_witness :
  convert_generic sample_uuid
    (JDict ([("E1"%string, JDict [("name"%string, JStr "a")])]
            ++ ("E2"%string, JNull)
               :: [("E3"%string, JDict [("name"%string, JStr "c")])]))
    XPO "event" 0 initial_state =
  (mkState
     [(URIRef "http://purl.org/xpo/E1", URIRef "http://purl.org/xpo/name",
       Literal (JStr "a"))]%string
     [] 0%nat None, Raised (AttributeError "items")).
Proof.
  rewrite (proj2 (non_object_raises_AttributeError sample_uuid XPO "event"
                    initial_state) _ "E2"%string JNull _ eq_refl).
  reflexivity.
Defined.

(** X3.  A record all of whose fields are string-valued properties gives one
    literal edge per field, in the order of the fields, whatever the values
    are; nothing is printed and no identifier is drawn. *)
Theorem flat_record_edges (uuid : nat -> string) (DWD type key : string)
  (fields : list (string * json)) (st : State) :
  Forall (fun kv => In (fst kv) string_properties) fields ->
  record_body uuid DWD type (key, JDict fields) st =
    (mkState
       (GRAPH st ++
        map (fun kv => (URIRef (DWD +s+ key), URIRef (DWD +s+ fst kv),
                        Literal (snd kv))) fields)
       (stdout st) (uuid_calls st) (ldc_arg_item st), Ok tt).
Proof.
  intros H. unfold record_body, bind. cbn [py_items ret].
  rewrite <- for_each_GRAPH_add. apply for_each_ext_In.
  intros [property value] st' Hin. rewrite Forall_forall in H.
  pose proof (in_strings_In _ _ (H _ Hin)) as E. cbn [fst] in E.
  unfold edges_body. now rewrite E.
Qed.

Lemma flat_record_edges_witness :
  record_body sample_uuid XPO "event"
    ("E1", JDict [("name", JStr "Attack"); ("comment", JList [])])%string
    initial_state =
  (mkState
     [(URIRef "http://purl.org/xpo/E1", URIRef "http://purl.org/xpo/name",
       Literal (JStr "Attack"));
      (URIRef "http://purl.org/xpo/E1", URIRef "http://purl.org/xpo/comment",
       Literal (JList []))]%string
     [] 0%nat None, Ok tt).
Proof.
  apply (flat_record_edges sample_uuid XPO "event" "E1"
           [("name", JStr "Attack"); ("comment", JList [])]%string
           initial_state).
  repeat constructor; simpl; tauto.
Defined.

(** ** Lists of nested records *)

Lemma py_getitem_dict d k x st :
  dict_get k d = Some x -> py_getitem (JDict d) k st = (st, Ok x).
Proof. intros H. cbn [py_getitem]. now rewrite H. Qed.

Lemma existsb_dict_get k d :
  existsb (fun kv : string * json => String.eqb (fst kv) k) d =
  match dict_get k d with Some _ => true | None => false end.
Proof.
  unfold dict_get. induction d as [|kv d IH]; [reflexivity|].
  cbn [existsb find]. destruct (String.eqb (fst kv) k); [reflexivity|].
  exact IH.
Qed.

Lemma total_draws_one {A} (l : list A) : total_draws one_draw l = length l.
Proof. induction l; simpl; auto. Qed.

Lemma for_each_indexed {A} (body : A -> M unit)
  (edges : nat -> A -> list triple) (draws : A -> nat) l :
  (forall a st, In a l ->
     body a st =
     (mkState (GRAPH st ++ edges (uuid_calls st) a) (stdout st)
        (uuid_calls st + draws a)%nat (ldc_arg_item st), Ok tt)) ->
  forall st,
    for_each l body st =
    (mkState (GRAPH st ++ indexed_edges edges draws l (uuid_calls st))
       (stdout st) (uuid_calls st + total_draws draws l)%nat
       (ldc_arg_item st), Ok tt).
Proof.
  induction l as [|a l IH]; intros H st.
  - cbn. now rewrite app_nil_r, Nat.add_0_r, mkState_eta.
  - cbn [for_each indexed_edges total_draws]. unfold bind.
    rewrite (H a st) by now left.
    rewrite IH by (intros a' st' Ha'; apply H; now right).
    cbn [GRAPH stdout uuid_calls ldc_arg_item].
    now rewrite <- app_assoc, Nat.add_assoc.
Qed.

Ltac run_body :=
  unfold bnode, bind;
  cbn [draw_uuid ret GRAPH_add py_getitem py_iter str_add
       GRAPH stdout uuid_calls ldc_arg_item].

Section Nested_lists.

Variable uuid : nat -> string.
Variables DWD type : string.
Variable node : term.

Lemma overlay_parents_body_ok v st :
  ref_fields v <> None ->
  overlay_parents_body uuid DWD node v st =
  (mkState (GRAPH st ++ overlay_edges uuid DWD node (uuid_calls st) v)
     (stdout st) (uuid_calls st + one_draw v)%nat (ldc_arg_item st), Ok tt).
Proof.
  intros H. unfold overlay_edges. unfold ref_fields in *.
  destruct v as [| | | | |l|d]; try congruence.
  destruct (dict_get "wd_node" d) as [[| | | |w| |]|] eqn:Ew; try congruence.
  destruct (dict_get "name" d) as [n|] eqn:En; try congruence.
  unfold overlay_parents_body. run_body. rewrite Ew. run_body.
  rewrite En. run_body. unfold GRAPH_add, one_draw, draw_label.
  cbn [GRAPH stdout uuid_calls ldc_arg_item].
  now rewrite <- !app_assoc, Nat.add_1_r.
Qed.

Lemma similar_nodes_body_ok v st :
  similar_fields v <> None ->
  similar_nodes_body uuid DWD node v st =
  (mkState (GRAPH st ++ similar_edges uuid DWD node (uuid_calls st) v)
     (stdout st) (uuid_calls st + one_draw v)%nat (ldc_arg_item st), Ok tt).
Proof.
  intros H. unfold similar_edges. unfold similar_fields in *.
  destruct v as [| | | | |l|d]; try congruence.
  destruct (dict_get "wd_node" d) as [[| | | |w| |]|] eqn:Ew; try congruence.
  destruct (dict_get "name" d) as [n|] eqn:En; try congruence.
  destruct (dict_get "similarity_type" d) as [[| | | |ty| |]|] eqn:Et;
    try congruence.
  unfold similar_nodes_body. run_body. rewrite Ew. run_body.
  rewrite En. run_body. rewrite Et. run_body.
  unfold GRAPH_add, one_draw, draw_label.
  cbn [GRAPH stdout uuid_calls ldc_arg_item].
  now rewrite <- !app_assoc, Nat.add_1_r.
Qed.

Lemma related_qnodes_body_ok v st :
  ref_fields v <> None ->
  related_qnodes_body uuid DWD node v st =
  (mkState (GRAPH st ++ related_edges uuid DWD node (uuid_calls st) v)
     (stdout st) (uuid_calls st + one_draw v)%nat (ldc_arg_item st), Ok tt).
Proof.
  intros H. unfold related_edges. unfold ref_fields in *.
  destruct v as [| | | | |l|d]; try congruence.
  destruct (dict_get "wd_node" d) as [[| | | |w| |]|] eqn:Ew; try congruence.
  destruct (dict_get "name" d) as [n|] eqn:En; try congruence.
  unfold related_qnodes_body. run_body. rewrite Ew. run_body.
  rewrite En. run_body. unfold GRAPH_add, one_draw, draw_label.
  cbn [GRAPH stdout uuid_calls ldc_arg_item].
  now rewrite <- !app_assoc, Nat.add_1_r.
Qed.

Lemma constraints_body_ok arg_node c st :
  ref_fields c <> None ->
  constraints_body uuid DWD arg_node c st =
  (mkState (GRAPH st ++ constraint_edges uuid DWD arg_node (uuid_calls st) c)
     (stdout st) (uuid_calls st + one_draw c)%nat (ldc_arg_item st), Ok tt).
Proof.
  intros H. unfold constraint_edges. unfold ref_fields in *.
  destruct c as [| | | | |l|d]; try congruence.
  destruct (dict_get "wd_node" d) as [[| | | |w| |]|] eqn:Ew; try congruence.
  destruct (dict_get "name" d) as [n|] eqn:En; try congruence.
  unfold constraints_body. run_body. rewrite En. run_body.
  rewrite Ew. run_body. unfold GRAPH_add, one_draw, draw_label.
  cbn [GRAPH stdout uuid_calls ldc_arg_item].
  now rewrite <- !app_assoc, Nat.add_1_r.
Qed.

Lemma optional_edge_then {B} s d k (rest : M B) st :
  (has <- py_contains k (JDict d) ;;
   (if has : bool
    then x <- py_getitem (JDict d) k ;;
         GRAPH_add (s, ns_attr DWD k, Literal x)
    else ret tt) ;;
   rest) st =
  rest (mkState (GRAPH st ++ optional_edge DWD s d k) (stdout st)
          (uuid_calls st) (ldc_arg_item st)).
Proof.
  unfold bind, optional_edge. cbn [py_contains ret py_getitem].
  rewrite existsb_dict_get.
  destruct (dict_get k d) as [x|] eqn:E.
  - reflexivity.
  - cbn [ret]. now rewrite app_nil_r, mkState_eta.
Qed.

Lemma arguments_body_ok arg st :
  argument_constraints arg <> None ->
  arguments_body uuid DWD node arg st =
  (mkState (GRAPH st ++ argument_edges uuid DWD node (uuid_calls st) arg)
     (stdout st) (uuid_calls st + argument_draws arg)%nat
     (ldc_arg_item st), Ok tt).
Proof.
  intros H. unfold argument_edges, argument_draws.
  unfold argument_constraints in *.
  destruct arg as [| | | | |l|d]; try congruence.
  destruct (dict_get "constraints" d) as [[| | | | |cs|]|] eqn:Ec;
    try congruence.
  destruct (forallb _ cs) eqn:Ef; try congruence.
  unfold arguments_body.
  unfold bind at 1. unfold bnode at 1. unfold bind at 1.
  cbn [draw_uuid ret]. unfold bind at 1. cbn [GRAPH_add].
  rewrite optional_edge_then, optional_edge_then.
  unfold bind. rewrite (py_getitem_dict _ _ _ _ Ec). cbn [py_iter ret].
  rewrite (for_each_indexed _ (constraint_edges uuid DWD
             (BNode (bnode_label "ARG"
                       (substring 0 5 (uuid (uuid_calls st))))))
             one_draw).
  - cbn [GRAPH stdout uuid_calls ldc_arg_item]. rewrite total_draws_one.
    unfold draw_label. rewrite <- !app_assoc. cbn [app].
    f_equal. f_equal. lia.
  - intros c st' Hc. apply constraints_body_ok.
    rewrite forallb_forall in Ef. specialize (Ef c Hc).
    destruct (ref_fields c); congruence.
Qed.

End Nested_lists.

(** X4.  A list of overlay parents, each an object with a string ["wd_node"]
    and a ["name"], gives for each element, in order, the overlay edge to a
    blank node made from the next identifier, then the Wikidata reference and
    the name literal that leave that node.  One identifier is drawn per
    element and nothing is printed. *)
Theorem overlay_parents_list_edges (uuid : nat -> string) (DWD type : string)
  (node : term) (l : list json) (st : State) :
  Forall (fun v => ref_fields v <> None) l ->
  edges_body uuid DWD type node ("overlay_parents"%string, JList l) st =
    (mkState
       (GRAPH st ++
        indexed_edges (overlay_edges uuid DWD node) one_draw l (uuid_calls st))
       (stdout st) (uuid_calls st + length l)%nat (ldc_arg_item st), Ok tt).
Proof.
  intros H. change (edges_body uuid DWD type node
                      ("overlay_parents"%string, JList l))
    with (for_each l (overlay_parents_body uuid DWD node)).
  rewrite (for_each_indexed _ (overlay_edges uuid DWD node) one_draw).
  - now rewrite total_draws_one.
  - intros v st' Hv. apply overlay_parents_body_ok.
    rewrite Forall_forall in H. now apply H.
Qed.

Lemma overlay_parents_list_edges_witness :
  edges_body sample_uuid XPO "event" (URIRef "http://purl.org/xpo/E1")
    ("overlay_parents"%string,
     JList [JDict [("wd_node", JStr "Q1"); ("name", JStr "a")];
            JDict [("name", JInt 2); ("wd_node", JStr "Q2")]]%string)
    initial_state =
  (mkState
     [(URIRef "http://purl.org/xpo/E1", URIRef "http://purl.org/xpo/overlay",
       BNode "OVERLAY_0Zk3v");
      (BNode "OVERLAY_0Zk3v", URIRef "http://purl.org/xpo/overlay_parent",
       URIRef "http://www.wikidata.org/wiki/Q1");
      (BNode "OVERLAY_0Zk3v", URIRef "http://purl.org/xpo/overlay_parent_name",
       Literal (JStr "a"));
      (URIRef "http://purl.org/xpo/E1", URIRef "http://purl.org/xpo/overlay",
       BNode "OVERLAY_1Zk3v");
      (BNode "OVERLAY_1Zk3v", URIRef "http://purl.org/xpo/overlay_parent",
       URIRef "http://www.wikidata.org/wiki/Q2");
      (BNode "OVERLAY_1Zk3v", URIRef "http://purl.org/xpo/overlay_parent_name",
       Literal (JInt 2))]%string
     [] 2%nat None, Ok tt).
Proof.
  apply (overlay_parents_list_edges sample_uuid XPO "event"
           (URIRef "http://purl.org/xpo/E1")
           [JDict [("wd_node", JStr "Q1"); ("name", JStr "a")];
            JDict [("name", JInt 2); ("wd_node", JStr "Q2")]]%string
           initial_state).
  repeat constructor; simpl; discriminate.
Defined.

(** X5.  A list of similar nodes, each an object with a string ["wd_node"], a
    ["name"] and a string ["similarity_type"], gives for each element, in
    order, the link to a new blank node and the three edges that leave it;
    one identifier is drawn per element and nothing is printed. *)
Theorem similar_nodes_list_edges (uuid : nat -> string) (DWD type : string)
  (node : term) (l : list json) (st : State) :
  Forall (fun v => similar_fields v <> None) l ->
  edges_body uuid DWD type node ("similar_nodes"%string, JList l) st =
    (mkState
       (GRAPH st ++
        indexed_edges (similar_edges uuid DWD node) one_draw l (uuid_calls st))
       (stdout st) (uuid_calls st + length l)%nat (ldc_arg_item st), Ok tt).
Proof.
  intros H. change (edges_body uuid DWD type node
                      ("similar_nodes"%string, JList l))
    with (for_each l (similar_nodes_body uuid DWD node)).
  rewrite (for_each_indexed _ (similar_edges uuid DWD node) one_draw).
  - now rewrite total_draws_one.
  - intros v st' Hv. apply similar_nodes_body_ok.
    rewrite Forall_forall in H. now apply H.
Qed.

Lemma similar_nodes_list_edges_witness :
  uuid_calls (fst (edges_body sample_uuid XPO "event"
    (URIRef "http://purl.org/xpo/E2")
    ("similar_nodes"%string,
     JList [JDict [("wd_node", JStr "Q9"); ("name", JStr "X");
                   ("similarity_type", JStr "exact")];
            JDict [("wd_node", JStr "Q8"); ("name", JStr "Y");
                   ("similarity_type", JStr "close")]]%string)
    initial_state)) = 2%nat.
Proof.
  rewrite (similar_nodes_list_edges sample_uuid XPO "event"
             (URIRef "http://purl.org/xpo/E2")
             [JDict [("wd_node", JStr "Q9"); ("name", JStr "X");
                     ("similarity_type", JStr "exact")];
              JDict [("wd_node", JStr "Q8"); ("name", JStr "Y");
                     ("similarity_type", JStr "close")]]%string
             initial_state).
  - reflexivity.
  - repeat constructor; simpl; discriminate.
Defined.

(** X6.  A list of related Wikidata nodes, each an object with a string
    ["wd_node"] and a ["name"], gives for each element, in order, the
    [related_qnode] edge to a new blank node, then the Wikidata reference
    and the name literal; one identifier per element, nothing printed. *)
Theorem related_qnodes_list_edges (uuid : nat -> string) (DWD type : string)
  (node : term) (l : list json) (st : State) :
  Forall (fun v => ref_fields v <> None) l ->
  edges_body uuid DWD type node ("related_qnodes"%string, JList l) st =
    (mkState
       (GRAPH st ++
        indexed_edges (related_edges uuid DWD node) one_draw l (uuid_calls st))
       (stdout st) (uuid_calls st + length l)%nat (ldc_arg_item st), Ok tt).
Proof.
  intros H. change (edges_body uuid DWD type node
                      ("related_qnodes"%string, JList l))
    with (for_each l (related_qnodes_body uuid DWD node)).
  rewrite (for_each_indexed _ (related_edges uuid DWD node) one_draw).
  - now rewrite total_draws_one.
  - intros v st' Hv. apply related_qnodes_body_ok.
    rewrite Forall_forall in H. now apply H.
Qed.

Lemma related_qnodes_list_edges_witness :
  edges_body sample_uuid XPO "event" (URIRef "http://purl.org/xpo/E1")
    ("related_qnodes"%string,
     JList [JDict [("wd_node", JStr "Q5"); ("name", JStr "human")]]%string)
    initial_state =
  (mkState
     [(URIRef "http://purl.org/xpo/E1",
       URIRef "http://purl.org/xpo/related_qnode", BNode "WDNODE_0Zk3v");
      (BNode "WDNODE_0Zk3v", URIRef "http://purl.org/xpo/wd_node",
       URIRef "http://www.wikidata.org/wiki/Q5");
      (BNode "WDNODE_0Zk3v", URIRef "http://purl.org/xpo/name",
       Literal (JStr "human"))]%string
     [] 1%nat None, Ok tt).
Proof.
  apply (related_qnodes_list_edges sample_uuid XPO "event"
           (URIRef "http://purl.org/xpo/E1")
           [JDict [("wd_node", JStr "Q5"); ("name", JStr "human")]]%string
           initial_state).
  repeat constructor; simpl; discriminate.
Defined.

(** X7.  A list of arguments, each an object whose ["constraints"] is a list
    of reference records, gives for each argument the [argument] edge to a
    new blank node, a name and a short-name literal only when the key is
    there, and for each constraint one more blank node with its name and its
    Wikidata reference.  An argument draws one identifier plus one per
    constraint, so the constraint nodes of an argument are numbered before
    the next argument. *)
Theorem arguments_list_edges (uuid : nat -> string) (DWD type : string)
  (node : term) (l : list json) (st : State) :
  Forall (fun arg => argument_constraints arg <> None) l ->
  edges_body uuid DWD type node ("arguments"%string, JList l) st =
    (mkState
       (GRAPH st ++
        indexed_edges (argument_edges uuid DWD node) argument_draws l
          (uuid_calls st))
       (stdout st) (uuid_calls st + total_draws argument_draws l)%nat
       (ldc_arg_item st), Ok tt).
Proof.
  intros H. change (edges_body uuid DWD type node
                      ("arguments"%string, JList l))
    with (for_each l (arguments_body uuid DWD node)).
  apply for_each_indexed.
  intros arg st' Harg. apply arguments_body_ok.
  rewrite Forall_forall in H. now apply H.
Qed.

Lemma arguments_list_edges_witness :
  edges_body sample_uuid XPO "event" (URIRef "http://purl.org/xpo/E1")
    ("arguments"%string,
     JList [JDict [("name", JStr "A0_agent");
                   ("constraints",
                    JList [JDict [("name", JStr "person");
                                  ("wd_node", JStr "Q215627")]])];
            JDict [("short_name", JStr "A1"); ("constraints", JList [])]]
     %string)
    initial_state =
  (mkState
     [(URIRef "http://purl.org/xpo/E1", URIRef "http://purl.org/xpo/argument",
       BNode "ARG_0Zk3v");
      (BNode "ARG_0Zk3v", URIRef "http://purl.org/xpo/name",
       Literal (JStr "A0_agent"));
      (BNode "ARG_0Zk3v", URIRef "http://purl.org/xpo/constraint",
       BNode "CONSTRAINT_1Zk3v");
      (BNode "CONSTRAINT_1Zk3v", URIRef "http://purl.org/xpo/name",
       Literal (JStr "person"));
      (BNode "CONSTRAINT_1Zk3v", URIRef "http://purl.org/xpo/wd_node",
       URIRef "http://www.wikidata.org/wiki/Q215627");
      (URIRef "http://purl.org/xpo/E1", URIRef "http://purl.org/xpo/argument",
       BNode "ARG_2Zk3v");
      (BNode "ARG_2Zk3v", URIRef "http://purl.org/xpo/short_name",
       Literal (JStr "A1"))]%string
     [] 3%nat None, Ok tt).
Proof.
  apply (arguments_list_edges sample_uuid XPO "event"
           (URIRef "http://purl.org/xpo/E1")
           [JDict [("name", JStr "A0_agent");
                   ("constraints",
                    JList [JDict [("name", JStr "person");
                                  ("wd_node", JStr "Q215627")]])];
            JDict [("short_name", JStr "A1"); ("constraints", JList [])]]
           %string initial_state).
  repeat constructor; simpl; discriminate.
Defined.

(** ** Elements that cannot be converted *)

(** X8.  An element that is not an object stops the run after its blank node
    has been made and linked: [TypeError] under [overlay_parents],
    [similar_nodes], [related_qnodes] and [arguments] (a string or a list
    included, whether or not it contains ["name"]), [AttributeError] under
    [ldc_types].  The link edge stays in the graph and the blank node has no
    outgoing edge. *)
Theorem non_object_element_raises (uuid : nat -> string) (DWD : string)
  (node : term) (v : json) (st : State) :
  isinstance_dict v = false ->
  overlay_parents_body uuid DWD node v st =
    (linked_only uuid DWD node "OVERLAY" "overlay" st, Raised TypeError)
  /\ similar_nodes_body uuid DWD node v st =
    (linked_only uuid DWD node "SIMILAR" "similarNode" st, Raised TypeError)
  /\ related_qnodes_body uuid DWD node v st =
    (linked_only uuid DWD node "WDNODE" "related_qnode" st, Raised TypeError)
  /\ arguments_body uuid DWD node v st =
    (linked_only uuid DWD node "ARG" "argument" st, Raised TypeError)
  /\ forall property,
       ldc_types_body uuid DWD node property v st =
       (linked_only uuid DWD node "LDCTYPE" "ldc_type" st,
        Raised (AttributeError "items")).
Proof.
  intros Hv. destruct v as [| | | |s|l|d]; try discriminate Hv;
    repeat split; try reflexivity.
  - unfold arguments_body. run_body. cbn [py_contains].
    destruct (is_substring "name" s); [reflexivity|]. cbn [ret].
    destruct (is_substring "short_name" s); reflexivity.
  - unfold arguments_body. run_body. cbn [py_contains].
    destruct (existsb (is_str "name") l); [reflexivity|]. cbn [ret].
    destruct (existsb (is_str "short_name") l); reflexivity.
Qed.

Lemma non_object_element_raises_witness :
  arguments_body sample_uuid XPO (URIRef "http://purl.org/xpo/E1")
    (JStr "my name") initial_state =
  (mkState
     [(URIRef "http://purl.org/xpo/E1", URIRef "http://purl.org/xpo/argument",
       BNode "ARG_0Zk3v")]%string
     [] 1%nat None, Raised TypeError).
Proof.
  apply (non_object_element_raises sample_uuid XPO
           (URIRef "http://purl.org/xpo/E1") (JStr "my name") initial_state
           eq_refl).
Defined.

(** X9.  A reference record whose ["wd_node"] is missing raises [KeyError],
    one whose ["wd_node"] is not a string raises [TypeError]; under
    [overlay_parents], [similar_nodes] and [related_qnodes] alike the blank
    node was linked before and is left without an outgoing edge. *)
Theorem unusable_wd_node_raises (uuid : nat -> string) (DWD : string)
  (node : term) (d : list (string * json)) (e : exn) (st : State) :
  wd_node_error d = Some e ->
  overlay_parents_body uuid DWD node (JDict d) st =
    (linked_only uuid DWD node "OVERLAY" "overlay" st, Raised e)
  /\ similar_nodes_body uuid DWD node (JDict d) st =
    (linked_only uuid DWD node "SIMILAR" "similarNode" st, Raised e)
  /\ related_qnodes_body uuid DWD node (JDict d) st =
    (linked_only uuid DWD node "WDNODE" "related_qnode" st, Raised e).
Proof.
  unfold wd_node_error. intros H.
  unfold overlay_parents_body, similar_nodes_body, related_qnodes_body.
  run_body.
  destruct (dict_get "wd_node" d) as [[| | | |w| |]|]; try discriminate H;
    injection H as <-; repeat split; reflexivity.
Qed.

Lemma unusable_wd_node_raises_witness :
  related_qnodes_body sample_uuid XPO (URIRef "http://purl.org/xpo/E1")
    (JDict [("wd_node", JInt 5); ("name", JStr "human")]%string)
    initial_state =
  (mkState
     [(URIRef "http://purl.org/xpo/E1",
       URIRef "http://purl.org/xpo/related_qnode", BNode "WDNODE_0Zk3v")]
     %string [] 1%nat None, Raised TypeError).
Proof.
  apply (unusable_wd_node_raises sample_uuid XPO
           (URIRef "http://purl.org/xpo/E1")
           [("wd_node", JInt 5); ("name", JStr "human")]%string TypeError
           initial_state eq_refl).
Defined.

(** X10.  An argument without ["constraints"] raises [KeyError], but only
    after its blank node was linked and its name and short name, when
    present, were added: those edges stay in the graph. *)
Theorem argument_without_constraints (uuid : nat -> string) (DWD : string)
  (node : term) (d : list (string * json)) (st : State) :
  dict_get "constraints" d = None ->
  let a := BNode (draw_label uuid "ARG" (uuid_calls st)) in
  arguments_body uuid DWD node (JDict d) st =
    (mkState
       (GRAPH st ++
        (node, ns_attr DWD "argument", a)
        :: optional_edge DWD a d "name" ++ optional_edge DWD a d "short_name")
       (stdout st) (S (uuid_calls st)) (ldc_arg_item st),
     Raised (KeyError "constraints")).
Proof.
  intros Hc a. unfold arguments_body.
  unfold bind at 1. unfold bnode at 1. unfold bind at 1.
  cbn [draw_uuid ret]. unfold bind at 1. cbn [GRAPH_add].
  rewrite optional_edge_then, optional_edge_then.
  unfold bind. cbn [py_getitem]. rewrite Hc.
  cbn [raise GRAPH stdout uuid_calls ldc_arg_item].
  unfold a, draw_label. now rewrite <- !app_assoc.
Qed.

Lemma argument_without_constraints_witness :
  arguments_body sample_uuid XPO (URIRef "http://purl.org/xpo/E1")
    (JDict [("name", JStr "A0_agent")]%string) initial_state =
  (mkState
     [(URIRef "http://purl.org/xpo/E1", URIRef "http://purl.org/xpo/argument",
       BNode "ARG_0Zk3v");
      (BNode "ARG_0Zk3v", URIRef "http://purl.org/xpo/name",
       Literal (JStr "A0_agent"))]%string
     [] 1%nat None, Raised (KeyError "constraints")).
Proof.
  apply (argument_without_constraints sample_uuid XPO
           (URIRef "http://purl.org/xpo/E1")
           [("name", JStr "A0_agent")]%string initial_state eq_refl).
Defined.

(** ** The sub-fields of an [ldc_types] element *)

Lemma chars_all_str s : Forall (fun v => exists t, v = JStr t) (chars s).
Proof.
  induction s as [|c s IH]; cbn [chars]; [constructor|].
  destruct (starts_with_continuation s); [|constructor; eauto].
  destruct (chars s) as [|[| | | |t| |] rest];
    inversion IH; subst; constructor; eauto.
Qed.

Lemma chars_length s :
  length (chars s) =
  (lead_bytes s + if starts_with_continuation s then 1 else 0)%nat.
Proof.
  induction s as [|c s IH]; [reflexivity|].
  cbn [chars lead_bytes starts_with_continuation].
  destruct (starts_with_continuation s) eqn:E.
  - pose proof (chars_all_str s) as Hall.
    destruct (chars s) as [|v rest]; [cbn in IH; lia|].
    inversion Hall as [|? ? [t ->] _]; subst.
    cbn [length] in *. destruct (is_continuation c); lia.
  - cbn [length]. rewrite IH. destruct (is_continuation c); lia.
Qed.

Lemma chars_single_bytes s :
  single_bytes s = true -> length (chars s) = String.length s.
Proof.
  induction s as [|c s IH]; [reflexivity|].
  cbn [single_bytes chars String.length]. intros H.
  apply andb_true_iff in H. destruct H as [_ H].
  replace (starts_with_continuation s) with false.
  - cbn [length]. now rewrite IH.
  - destruct s as [|c' s]; [reflexivity|]. cbn [single_bytes] in H.
    apply andb_true_iff in H. destruct H as [H _].
    cbn [starts_with_continuation]. now destruct (is_continuation c').
Qed.

Lemma for_each_ldc_type_simple_items (uuid : nat -> string) (DWD : string)
  (node : term) (property : string) (ldc_type_node : term) items :
  Forall (fun kv => in_strings (fst kv)
                      ["other_pb_rolesets"; "ldc_arguments"]%string = false)
         items ->
  forall st,
    for_each items
      (ldc_type_items_body uuid DWD node property ldc_type_node) st =
    (mkState (GRAPH st ++ ldc_type_simple_edges DWD ldc_type_node items)
       (stdout st ++ ldc_type_simple_lines node property items)
       (uuid_calls st) (ldc_arg_item st), Ok tt).
Proof.
  induction items as [|[vname vvalue] items IH]; intros H st.
  - cbn. now rewrite !app_nil_r, mkState_eta.
  - inversion H as [|? ? Hkv H']; subst. cbn [fst] in Hkv.
    apply in_strings_cons_false in Hkv. destruct Hkv as [E1 Hkv].
    apply in_strings_cons_false in Hkv. destruct Hkv as [E2 _].
    cbn [for_each]. unfold bind.
    unfold ldc_type_items_body at 1.
    unfold ldc_type_simple_edges, ldc_type_simple_lines, in_strings,
      ldc_type_fields.
    cbn [flat_map existsb fst snd]. rewrite E1, E2.
    destruct (String.eqb vname "name") eqn:En;
      [|destruct (String.eqb vname "ldc_code") eqn:Ec];
      cbn [GRAPH_add print orb]; rewrite (IH H');
      cbn [GRAPH stdout uuid_calls ldc_arg_item app];
      unfold ldc_type_simple_edges, ldc_type_simple_lines, in_strings,
        ldc_type_fields;
      rewrite <- ?app_assoc; reflexivity.
Qed.

(** X11.  An [ldc_types] element whose keys include neither
    ["other_pb_rolesets"] nor ["ldc_arguments"] gives the [ldc_type] edge to a
    new blank node, a literal edge for each ["name"] and ["ldc_code"], and one
    printed line, but no edge and no exception, for every other key. *)
Theorem ldc_type_simple_element (uuid : nat -> string) (DWD : string)
  (node : term) (property : string) (items : list (string * json))
  (st : State) :
  Forall (fun kv => in_strings (fst kv)
                      ["other_pb_rolesets"; "ldc_arguments"]%string = false)
         items ->
  let b := BNode (draw_label uuid "LDCTYPE" (uuid_calls st)) in
  ldc_types_body uuid DWD node property (JDict items) st =
    (mkState
       (GRAPH st ++
        (node, ns_attr DWD "ldc_type", b) :: ldc_type_simple_edges DWD b items)
       (stdout st ++ ldc_type_simple_lines node property items)
       (S (uuid_calls st)) (ldc_arg_item st), Ok tt).
Proof.
  intros H b. unfold ldc_types_body. run_body. cbn [py_items ret].
  rewrite for_each_ldc_type_simple_items by exact H.
  cbn [GRAPH stdout uuid_calls ldc_arg_item].
  unfold b, draw_label. now rewrite <- app_assoc.
Qed.

Lemma ldc_type_simple_element_witness :
  ldc_types_body sample_uuid XPO (URIRef "http://purl.org/xpo/E1")
    "ldc_types"
    (JDict [("name", JStr "Conflict.Attack"); ("ldc_code", JStr "C1");
            ("version", JInt 2)]%string)
    initial_state =
  (mkState
     [(URIRef "http://purl.org/xpo/E1", URIRef "http://purl.org/xpo/ldc_type",
       BNode "LDCTYPE_0Zk3v");
      (BNode "LDCTYPE_0Zk3v", URIRef "http://purl.org/xpo/name",
       Literal (JStr "Conflict.Attack"));
      (BNode "LDCTYPE_0Zk3v", URIRef "http://purl.org/xpo/ldc_code",
       Literal (JStr "C1"))]%string
     [Bad_LDC_types_property (URIRef "http://purl.org/xpo/E1") "ldc_types"
        "version"]
     1%nat None, Ok tt).
Proof.
  apply (ldc_type_simple_element sample_uuid XPO
           (URIRef "http://purl.org/xpo/E1") "ldc_types"
           [("name", JStr "Conflict.Attack"); ("ldc_code", JStr "C1");
            ("version", JInt 2)]%string initial_state).
  repeat constructor.
Defined.

(** X12.  Under ["other_pb_rolesets"] a list gives one literal edge per
    element, but a string gives one edge per character, since the loop
    iterates over whatever the value is: as many edges as the string has
    code points, which for a string of one-byte characters is its length.
    [null], a boolean or a number raises [TypeError] and adds nothing. *)
Theorem other_pb_rolesets_edges (uuid : nat -> string) (DWD : string)
  (node : term) (property : string) (ldc_type_node : term) (st : State) :
  let edge v := (ldc_type_node, ns_attr DWD "other_pb_roleset", Literal v) in
  (forall l,
     ldc_type_items_body uuid DWD node property ldc_type_node
       ("other_pb_rolesets"%string, JList l) st =
     (mkState (GRAPH st ++ map edge l) (stdout st) (uuid_calls st)
        (ldc_arg_item st), Ok tt))
  /\ (forall s,
     ldc_type_items_body uuid DWD node property ldc_type_node
       ("other_pb_rolesets"%string, JStr s) st =
     (mkState (GRAPH st ++ map edge (chars s)) (stdout st) (uuid_calls st)
        (ldc_arg_item st), Ok tt)
     /\ (starts_with_continuation s = false ->
         length (map edge (chars s)) = lead_bytes s)
     /\ (single_bytes s = true ->
         length (map edge (chars s)) = String.length s))
  /\ (forall v,
     isinstance_list v = false -> isinstance_dict v = false ->
     (forall s, v <> JStr s) ->
     ldc_type_items_body uuid DWD node property ldc_type_node
       ("other_pb_rolesets"%string, v) st = (st, Raised TypeError)).
Proof.
  intros edge. split; [|split].
  - intros l. unfold ldc_type_items_body. cbn [String.eqb Ascii.eqb Bool.eqb].
    unfold bind. cbn [py_iter ret]. apply for_each_GRAPH_add.
  - intros s. split; [|split].
    + unfold ldc_type_items_body. cbn [String.eqb Ascii.eqb Bool.eqb].
      unfold bind. cbn [py_iter ret]. apply for_each_GRAPH_add.
    + intros H. rewrite length_map, chars_length, H. lia.
    + intros H. rewrite length_map. now apply chars_single_bytes.
  - intros v Hl Hd Hs.
    destruct v; try discriminate; try reflexivity.
    now destruct (Hs s).
Qed.

(** A number; a string of three characters, the second of them the three
    bytes of U+4E2D. *)
Lemma other_pb_rolesets_edges_witness :
  ldc_type_items_body sample_uuid XPO (URIRef "http://purl.org/xpo/E1")
    "ldc_types" (BNode "LDCTYPE_0Zk3v")
    ("other_pb_rolesets"%string, JInt 3) initial_state =
  (initial_state, Raised TypeError)
  /\ length
       (map (fun v => (BNode "LDCTYPE_0Zk3v",
                       ns_attr XPO "other_pb_roleset", Literal v))
            (chars (String "a" (String (ascii_of_nat 228)
                      (String (ascii_of_nat 184) (String (ascii_of_nat 173)
                         (String "b" EmptyString))))))) = 3%nat
  /\ length
       (map (fun v => (BNode "LDCTYPE_0Zk3v",
                       ns_attr XPO "other_pb_roleset", Literal v))
            (chars "ab")) = 2%nat.
Proof.
  pose proof (other_pb_rolesets_edges sample_uuid XPO
                (URIRef "http://purl.org/xpo/E1") "ldc_types"
                (BNode "LDCTYPE_0Zk3v") initial_state) as H.
  split; [|split].
  - apply (proj2 (proj2 H) (JInt 3));
      [reflexivity | reflexivity | discriminate].
  - apply (proj1 (proj2 (proj1 (proj2 H)
             (String "a" (String (ascii_of_nat 228)
                (String (ascii_of_nat 184) (String (ascii_of_nat 173)
                   (String "b" EmptyString)))))))).
    reflexivity.
  - apply (proj2 (proj2 (proj1 (proj2 H) "ab"%string))). reflexivity.
Defined.

Lemma ldc_arguments_body_passes (uuid : nat -> string) (DWD : string)
  (ldc_type_node : term) ldc_arg st :
  ldc_argument_passes ldc_arg = true ->
  exists item,
    ldc_arguments_body uuid DWD ldc_type_node ldc_arg st =
    (mkState
       (GRAPH st ++
        ldc_argument_edges uuid DWD ldc_type_node (uuid_calls st) ldc_arg)
       (stdout st) (S (uuid_calls st)) (Some item), Ok tt).
Proof.
  intros H. destruct ldc_arg as [| | | | | |items]; try discriminate H.
  destruct items as [|item0 rest]; [discriminate H|].
  cbn [ldc_argument_passes] in H. apply negb_true_iff in H.
  exists (last (item0 :: rest) (EmptyString, JNull)).
  unfold ldc_arguments_body, bnode, bind.
  cbn [draw_uuid ret GRAPH_add py_items GRAPH stdout uuid_calls ldc_arg_item].
  rewrite for_each_ldc_arg_items, ldc_constraints_block_run.
  cbn [fst snd GRAPH stdout uuid_calls ldc_arg_item]. rewrite H.
  unfold ldc_argument_edges, draw_label. now rewrite <- app_assoc.
Qed.

Lemma for_each_ldc_arguments_pass (uuid : nat -> string) (DWD : string)
  (ldc_type_node : term) l :
  Forall (fun a => ldc_argument_passes a = true) l ->
  forall st, exists locals,
    for_each l (ldc_arguments_body uuid DWD ldc_type_node) st =
    (mkState
       (GRAPH st ++
        indexed_edges (ldc_argument_edges uuid DWD ldc_type_node) one_draw l
          (uuid_calls st))
       (stdout st) (uuid_calls st + length l)%nat locals, Ok tt).
Proof.
  induction l as [|a l IH]; intros H st.
  - exists (ldc_arg_item st). cbn.
    now rewrite app_nil_r, Nat.add_0_r, mkState_eta.
  - inversion H as [|? ? Ha H']; subst.
    destruct (ldc_arguments_body_passes uuid DWD ldc_type_node a st Ha)
      as [item Hrun].
    cbn [for_each]. unfold bind. rewrite Hrun.
    destruct (IH H' (mkState
       (GRAPH st ++
        ldc_argument_edges uuid DWD ldc_type_node (uuid_calls st) a)
       (stdout st) (S (uuid_calls st)) (Some item))) as [locals Hrest].
    exists locals. rewrite Hrest.
    cbn [GRAPH stdout uuid_calls ldc_arg_item indexed_edges length one_draw].
    rewrite <- app_assoc, Nat.add_1_r. f_equal. f_equal. lia.
Qed.

(** X13.  Under ["ldc_arguments"], a list of objects that each have at least
    one key and do not end with the misspelt ["ldc_contraints"] gives for
    each element, in order, the [ldc_argument] edge to a new blank node and
    one [ldc_code] literal for each of its three leaf names; every other key
    of an element is dropped without a printed line.  One identifier is drawn
    per element and no exception is raised. *)
Theorem ldc_arguments_list_edges (uuid : nat -> string) (DWD : string)
  (node : term) (property : string) (ldc_type_node : term) (l : list json)
  (st : State) :
  Forall (fun a => ldc_argument_passes a = true) l ->
  let out := ldc_type_items_body uuid DWD node property ldc_type_node
               ("ldc_arguments"%string, JList l) st in
  GRAPH (fst out) =
    GRAPH st ++
    indexed_edges (ldc_argument_edges uuid DWD ldc_type_node) one_draw l
      (uuid_calls st)
  /\ stdout (fst out) = stdout st
  /\ uuid_calls (fst out) = (uuid_calls st + length l)%nat
  /\ snd out = Ok tt.
Proof.
  intros H out. subst out.
  unfold ldc_type_items_body. cbn [String.eqb Ascii.eqb Bool.eqb].
  unfold bind. cbn [py_iter ret].
  destruct (for_each_ldc_arguments_pass uuid DWD ldc_type_node l H st)
    as [locals Hrun].
  rewrite Hrun. cbn [fst snd GRAPH stdout uuid_calls]. auto.
Qed.

Lemma ldc_arguments_list_edges_witness :
  GRAPH (fst (ldc_type_items_body sample_uuid XPO
    (URIRef "http://purl.org/xpo/E1") "ldc_types" (BNode "LDCTYPE_0Zk3v")
    ("ldc_arguments"%string,
     JList [JDict [("ldc_name", JStr "Attacker");
                   ("ldc_constraints", JList [JStr "per"])];
            JDict [("dwd_arg_name", JStr "A1")]]%string)
    (mkState [] [] 1%nat None))) =
  [(BNode "LDCTYPE_0Zk3v", URIRef "http://purl.org/xpo/ldc_argument",
    BNode "LDCARG_1Zk3v");
   (BNode "LDCARG_1Zk3v", URIRef "http://purl.org/xpo/ldc_code",
    Literal (JStr "Attacker"));
   (BNode "LDCTYPE_0Zk3v", URIRef "http://purl.org/xpo/ldc_argument",
    BNode "LDCARG_2Zk3v");
   (BNode "LDCARG_2Zk3v", URIRef "http://purl.org/xpo/ldc_code",
    Literal (JStr "A1"))]%string.
Proof.
  apply (ldc_arguments_list_edges sample_uuid XPO
           (URIRef "http://purl.org/xpo/E1") "ldc_types"
           (BNode "LDCTYPE_0Zk3v")
           [JDict [("ldc_name", JStr "Attacker");
                   ("ldc_constraints", JList [JStr "per"])];
            JDict [("dwd_arg_name", JStr "A1")]]%string
           (mkState [] [] 1%nat None)).
  repeat constructor.
Defined.

(** ** The shape of the triples *)

Section Shape.

Variable uuid : nat -> string.

Lemma adds_same {A} (P : triple -> Prop) (m : M A) :
  (forall st, GRAPH (fst (m st)) = GRAPH st) -> adds_only P m.
Proof.
  intros H st. exists []. rewrite H, app_nil_r.
  split; [reflexivity | constructor].
Qed.

Lemma adds_ret {A} P (a : A) : adds_only P (ret a).
Proof. now apply adds_same. Qed.

Lemma adds_raise {A} P e : adds_only P (@raise A e).
Proof. now apply adds_same. Qed.

Lemma adds_print P d : adds_only P (print d).
Proof. now apply adds_same. Qed.

Lemma adds_assign_ldc_arg P name value :
  adds_only P (assign_ldc_arg name value).
Proof. now apply adds_same. Qed.

Lemma adds_read_ldc_arg P : adds_only P read_ldc_arg.
Proof.
  apply adds_same. intros st. unfold read_ldc_arg.
  now destruct (ldc_arg_item st).
Qed.

Lemma adds_enter_function P : adds_only P enter_function.
Proof. now apply adds_same. Qed.

Lemma adds_py_getitem P v k : adds_only P (py_getitem v k).
Proof.
  destruct v; cbn [py_getitem]; try apply adds_raise.
  destruct (dict_get k items); [apply adds_ret | apply adds_raise].
Qed.

Lemma adds_py_items P v : adds_only P (py_items v).
Proof. destruct v; first [apply adds_ret | apply adds_raise]. Qed.

Lemma adds_py_iter P v : adds_only P (py_iter v).
Proof. destruct v; first [apply adds_ret | apply adds_raise]. Qed.

Lemma adds_py_contains P k v : adds_only P (py_contains k v).
Proof. destruct v; first [apply adds_ret | apply adds_raise]. Qed.

Lemma adds_lookup_graph P : adds_only P lookup_graph.
Proof. apply adds_raise. Qed.

Lemma adds_GRAPH_add (P : triple -> Prop) t : P t -> adds_only P (GRAPH_add t).
Proof.
  intros H st. exists [t]. split; [reflexivity|]. now constructor.
Qed.

Lemma adds_bind {A B} P (m : M A) (k : A -> M B) :
  adds_only P m -> (forall a, adds_only P (k a)) -> adds_only P (bind m k).
Proof.
  intros Hm Hk st. destruct (Hm st) as (dg & G & HP). unfold bind.
  destruct (m st) as [s1 [a|e]]; cbn [fst] in *.
  - destruct (Hk a s1) as (dg' & G' & HP'). exists (dg ++ dg').
    rewrite G', G, <- app_assoc. split; [reflexivity|].
    apply Forall_app. now split.
  - now exists dg.
Qed.

Lemma adds_bind_bnode {B} P prefix (k : term -> M B) :
  (forall l, adds_only P (k (BNode l))) ->
  adds_only P (bind (bnode uuid prefix) k).
Proof.
  intros Hk st.
  destruct (Hk (bnode_label prefix (substring 0 5 (uuid (uuid_calls st))))
              (mkState (GRAPH st) (stdout st) (S (uuid_calls st))
                 (ldc_arg_item st))) as (dg & G & HP).
  exists dg. split; [exact G | exact HP].
Qed.

Lemma adds_bind_str_add {B} P ns v (k : string -> M B) :
  (forall s, adds_only P (k (ns +s+ s))) ->
  adds_only P (bind (str_add ns v) k).
Proof.
  intros Hk. destruct v; cbn [str_add];
    try (apply adds_bind; [apply adds_raise | intros s0; apply adds_ret]);
    try (intros st; exists []; rewrite app_nil_r; split;
         [reflexivity | constructor]).
  intros st. exact (Hk s st).
Qed.

Lemma adds_bind_ret {A B} P (a : A) (k : A -> M B) :
  adds_only P (k a) -> adds_only P (bind (ret a) k).
Proof. intros H st. exact (H st). Qed.

Lemma adds_bind_raise {A B} P e (k : A -> M B) :
  adds_only P (bind (raise e) k).
Proof. now apply adds_same. Qed.

Lemma adds_for_each {A} P (l : list A) (body : A -> M unit) :
  (forall a, adds_only P (body a)) -> adds_only P (for_each l body).
Proof.
  intros Hb. induction l as [|a l IH]; cbn [for_each].
  - apply adds_ret.
  - apply adds_bind; [apply Hb | intros _; exact IH].
Qed.

Lemma adds_weaken {A} (P Q : triple -> Prop) (m : M A) :
  (forall t, P t -> Q t) -> adds_only P m -> adds_only Q m.
Proof.
  intros HPQ Hm st. destruct (Hm st) as (dg & G & HP). exists dg.
  split; [exact G|]. eapply Forall_impl; [exact HPQ | exact HP].
Qed.

Ltac shape_tac :=
  unfold triple_shape, subject_of, predicate_of, object_of, ns_attr;
  cbn [fst snd];
  split; [eexists; reflexivity|];
  split; [first [left; reflexivity | right; eexists; reflexivity]|];
  intros iri E;
  first [ discriminate E
        | injection E as <-; eexists;
          first [left; reflexivity | right; reflexivity] ].

Ltac adds_step :=
  match goal with
  | |- adds_only _ (bind (bnode _ _) _) => apply adds_bind_bnode; intros ?
  | |- adds_only _ (bind (str_add _ _) _) => apply adds_bind_str_add; intros ?
  | |- adds_only _ (GRAPH_add _) => apply adds_GRAPH_add; shape_tac
  | |- adds_only _ (bind _ _) => apply adds_bind; [|intros ?]
  | |- adds_only _ (for_each _ _) => apply adds_for_each; intros ?
  | |- adds_only _ (if ?b then _ else _) => destruct b
  | |- adds_only _ (let '(_, _) := ?p in _) => destruct p
  | |- _ =>
      first [ apply adds_ret | apply adds_raise | apply adds_print
            | apply adds_assign_ldc_arg | apply adds_read_ldc_arg
            | apply adds_py_getitem | apply adds_py_items
            | apply adds_py_iter | apply adds_py_contains
            | apply adds_lookup_graph ]
  end.

Lemma adds_edges_body DWD type node item :
  adds_only (triple_shape DWD node) (edges_body uuid DWD type node item).
Proof.
  destruct item as [property value]. unfold edges_body.
  repeat match goal with
         | |- adds_only _ (if ?b then _ else _) => destruct b
         end;
    try (destruct value);
    unfold overlay_parents_body, similar_nodes_body, ldc_types_body,
      ldc_type_items_body, ldc_arguments_body, ldc_constraints_block,
      ldc_constraints_body, ldc_arg_items_body, arguments_body,
      constraints_body, related_qnodes_body;
    repeat adds_step.
Qed.

Lemma adds_record_body DWD type item :
  adds_only (triple_shape DWD (URIRef (DWD +s+ fst item)))
    (record_body uuid DWD type item).
Proof.
  destruct item as [node edges]. unfold record_body. cbn [fst].
  apply adds_bind; [apply adds_py_items | intros fields].
  apply adds_for_each. intros item. apply adds_edges_body.
Qed.

Lemma adds_records_loop DWD type stop items : forall count,
  adds_only
    (fun t => exists key, In key (map fst items) /\
                          triple_shape DWD (URIRef (DWD +s+ key)) t)
    (records_loop uuid DWD type stop items count).
Proof.
  induction items as [|item rest IH]; intros count; cbn [records_loop].
  - apply adds_ret.
  - destruct ((0 <? stop) && (stop <? count + 1)); [apply adds_ret|].
    apply adds_bind.
    + eapply adds_weaken; [|apply adds_record_body].
      intros t Ht. exists (fst item). split; [now left | exact Ht].
    + intros _. eapply adds_weaken; [|apply IH].
      intros t (key & Hkey & Ht). exists key. split; [now right | exact Ht].
Qed.

End Shape.

(** X14.  Whatever the input, and also when the run ends in an exception,
    [convert_generic] only appends to the graph and to what was printed.
    Every triple it adds has a predicate in the namespace [DWD]; its subject
    is the node of one of the records or a blank node; and an object that is
    a URI is a Wikidata reference or lies in [DWD]. *)
Theorem convert_generic_appends_shaped (uuid : nat -> string) (data : json)
  (DWD type : string) (stop : Z) (st : State) :
  exists added printed,
    GRAPH (fst (convert_generic uuid data DWD type stop st)) =
      GRAPH st ++ added
    /\ stdout (fst (convert_generic uuid data DWD type stop st)) =
      stdout st ++ printed
    /\ Forall (fun t => exists key,
                 In key (record_keys data) /\
                 triple_shape DWD (URIRef (DWD +s+ key)) t) added.
Proof.
  assert (H : adds_only
    (fun t => exists key, In key (record_keys data) /\
                          triple_shape DWD (URIRef (DWD +s+ key)) t)
    (convert_generic uuid data DWD type stop)).
  { unfold convert_generic.
    apply adds_bind; [apply adds_enter_function | intros _].
    destruct data; cbn [py_items record_keys]; try apply adds_bind_raise.
    apply adds_bind_ret.
    apply adds_bind; [apply adds_records_loop | intros count; apply adds_ret]. }
  destruct (H st) as (added & G & HP).
  destruct (convert_generic_agree uuid uuid data DWD type stop st st
              (fun n => eq_refl))
    as (added' & printed & _ & _ & O & _ & _).
  exists added, printed. auto.
Qed.

(** ** The script *)

Lemma main_loop_inv (uuid : nat -> string) (N : Z) categories : forall s,
  graph_inv uuid (module_state s) ->
  graph_inv uuid (module_state (fst (main_loop uuid N categories s))).
Proof.
  induction categories as [|[xpo_type data] rest IH]; intros s Hinv.
  - exact Hinv.
  - cbn [main_loop]. unfold sbind, lift.
    pose proof (keeps_convert_generic uuid data XPO xpo_type N
                  (module_state s) Hinv (Forall_nil _)) as [Hinv' _].
    destruct (convert_generic uuid data XPO xpo_type N (module_state s))
      as [st' [n|e]]; cbn [fst] in Hinv'; [|exact Hinv'].
    cbn [print_found]. apply IH. exact Hinv'.
Qed.

Lemma script_inv (uuid : nat -> string) (xpo_data : json) s :
  graph_inv uuid (module_state s) ->
  graph_inv uuid (module_state (fst (script uuid xpo_data s))).
Proof.
  intros Hinv. destruct s as [st fl]. cbn [module_state] in Hinv.
  unfold script, sbind, lift. cbn [module_state found_lines].
  destruct xpo_data; cbn [py_getitem raise fst module_state]; try exact Hinv.
  repeat match goal with
         | |- context [dict_get ?k items] =>
             destruct (dict_get k items);
             cbn [ret raise fst module_state]; [|exact Hinv]
         end.
  now apply main_loop_inv.
Qed.

Lemma convert_generic_ok_count (uuid : nat -> string) (data : json)
  (DWD type : string) st st' n :
  convert_generic uuid data DWD type 0 st = (st', Ok n) ->
  exists records,
    data = JDict records /\ n = Z.of_nat (length records) - 1.
Proof.
  intros H. destruct data as [| | | | | |records]; try discriminate H.
  exists records. split; [reflexivity|].
  unfold convert_generic, bind in H. cbn [enter_function py_items ret] in H.
  rewrite records_loop_no_stop in H. unfold bind in H.
  match type of H with context [for_each ?l ?b ?s] =>
    destruct (for_each l b s) as [st2 [[]|e]] end; [|discriminate H].
  cbn [ret] in H. injection H as _ <-. lia.
Qed.

Lemma main_loop_found (uuid : nat -> string) categories : forall s s',
  main_loop uuid 0 categories s = (s', Ok tt) ->
  map found_shown (found_lines s') =
  map found_shown (found_lines s) ++
  map (fun c => (match snd c with
                 | JDict records => Z.of_nat (length records)
                 | _ => 0
                 end - 1, fst c)) categories.
Proof.
  induction categories as [|[xpo_type data] rest IH]; intros s s' H.
  - cbn in H. injection H as <-. now rewrite app_nil_r.
  - cbn [main_loop] in H. unfold sbind, lift in H.
    destruct (convert_generic uuid data XPO xpo_type 0 (module_state s))
      as [st' [n|e]] eqn:E; [|discriminate H].
    apply convert_generic_ok_count in E. destruct E as (records & -> & ->).
    cbn [print_found] in H. apply IH in H. rewrite H.
    cbn [found_lines map fst snd]. rewrite map_app, <- app_assoc.
    reflexivity.
Qed.

(** X15.  The script reads the four collections before it converts anything:
    a document that is not an object raises [TypeError], and an object that
    lacks one of the four keys raises [KeyError] for the first one missing,
    in the order events, entities, relations, temporal_relations; in both
    cases no triple has been added and nothing printed. *)
Theorem script_needs_four_collections (uuid : nat -> string) (s : Script) :
  (forall xpo_data,
     isinstance_dict xpo_data = false ->
     script uuid xpo_data s = (s, Raised TypeError))
  /\
  (forall d k,
     first_missing_collection d = Some k ->
     In k collections /\ dict_get k d = None /\
     script uuid (JDict d) s = (s, Raised (KeyError k))).
Proof.
  destruct s as [st fl]. split.
  - intros xpo_data H. destruct xpo_data; try discriminate H; reflexivity.
  - intros d k Hk. unfold first_missing_collection, collections in Hk.
    cbn [find] in Hk. unfold script, sbind, lift.
    cbn [module_state found_lines py_getitem].
    destruct (dict_get "events" d) eqn:E1;
      [|injection Hk as <-; cbn; auto].
    destruct (dict_get "entities" d) eqn:E2;
      [|injection Hk as <-; cbn; auto].
    destruct (dict_get "relations" d) eqn:E3;
      [|injection Hk as <-; cbn; auto 6].
    destruct (dict_get "temporal_relations" d) eqn:E4;
      [discriminate Hk | injection Hk as <-; cbn; auto 7].
Qed.

(** Both [relations] and [temporal_relations] are missing: the error names
    [relations]. *)
Lemma script_needs_four_collections_witness :
  script sample_uuid
    (JDict [("entities", JDict []); ("events", JDict [])]%string)
    initial_script =
  (initial_script, Raised (KeyError "relations")).
Proof.
  apply (proj2 (script_needs_four_collections sample_uuid initial_script)
           [("entities", JDict []); ("events", JDict [])]%string
           "relations"%string).
  reflexivity.
Defined.

(** X16.  In the graph that the script leaves after its four calls, finished
    or stopped by an exception, provided the identifiers drawn over the whole
    run do not collide: every blank node has exactly one incoming edge, which
    leaves another node; every identifier drawn gave such a node; and no
    blank node is shared between two elements, fields, records or
    collections. *)
Theorem script_blank_nodes_one_incoming_edge (uuid : nat -> string)
  (xpo_data : json) :
  let st' := module_state (fst (script uuid xpo_data initial_script)) in
  distinct_draws uuid (uuid_calls st') ->
  (forall l, occurs l (GRAPH st') ->
     exists t, In t (GRAPH st') /\ object_of t = BNode l /\
               subject_of t <> BNode l /\
               forall t', In t' (GRAPH st') -> object_of t' = BNode l -> t' = t)
  /\ (forall i, (i < uuid_calls st')%nat ->
        exists p, In p bnode_prefixes /\
                  In (draw_label uuid p i) (object_bnodes (GRAPH st')))
  /\ NoDup (object_bnodes (GRAPH st'))
  /\ length (object_bnodes (GRAPH st')) = uuid_calls st'.
Proof.
  intros st' Hd. apply one_incoming_edge_of_inv; [|exact Hd].
  apply script_inv. apply initial_state_inv.
Qed.

Lemma script_blank_nodes_one_incoming_edge_witness :
  NoDup (object_bnodes (GRAPH (module_state (fst (script sample_uuid
    (JDict [("events",
             JDict [("E1", JDict [("overlay_parents",
                JList [JDict [("wd_node", JStr "Q1"); ("name", JStr "a")]])])]);
            ("entities",
             JDict [("N1", JDict [("related_qnodes",
                JList [JDict [("wd_node", JStr "Q5"); ("name", JStr "b")]])])]);
            ("relations", JDict []);
            ("temporal_relations", JDict [])]%string)
    initial_script))))).
Proof.
  apply (script_blank_nodes_one_incoming_edge sample_uuid).
  intros i j Hi Hj H.
  change (i < 2)%nat in Hi. change (j < 2)%nat in Hj.
  destruct i as [|[|i]]; try lia; destruct j as [|[|j]]; try lia;
    first [reflexivity | discriminate H].
Defined.

(** X17.  When the script runs to its end, the four [Found] lines show, for
    each collection in turn, one less than the number of its records: the
    value that [convert_generic] returns with [stop = 0]. *)
Theorem script_found_lines (uuid : nat -> string)
  (d : list (string * json)) (s s' : Script) :
  script uuid (JDict d) s = (s', Ok tt) ->
  map found_shown (found_lines s') =
  map found_shown (found_lines s) ++
  [(collection_size d "events" - 1, "event"%string);
   (collection_size d "entities" - 1, "entity"%string);
   (collection_size d "relations" - 1, "relation"%string);
   (collection_size d "temporal_relations" - 1, "temporal_relation"%string)].
Proof.
  intros H. destruct s as [st fl]. unfold script, sbind, lift in H.
  cbn [module_state found_lines py_getitem] in H. unfold collection_size.
  destruct (dict_get "events" d) as [event|]; [|discriminate H].
  destruct (dict_get "entities" d) as [entity|]; [|discriminate H].
  destruct (dict_get "relations" d) as [relation|]; [|discriminate H].
  destruct (dict_get "temporal_relations" d) as [temporal_relation|];
    [|discriminate H].
  cbn [ret] in H. apply main_loop_found in H. rewrite H.
  cbn [found_lines map fst snd]. reflexivity.
Qed.

Lemma script_found_lines_witness :
  map found_shown (found_lines (fst (script sample_uuid
    (JDict [("events",
             JDict [("E1", JDict [("name", JStr "a")]);
                    ("E2", JDict [("name", JStr "b")])]);
            ("entities", JDict [("N1", JDict [])]);
            ("relations", JDict []);
            ("temporal_relations", JDict [])]%string)
    initial_script))) =
  [(1, "event"); (0, "entity"); (-1, "relation");
   (-1, "temporal_relation")]%string.
Proof.
  apply (script_found_lines sample_uuid
           [("events",
             JDict [("E1", JDict [("name", JStr "a")]);
                    ("E2", JDict [("name", JStr "b")])]);
            ("entities", JDict [("N1", JDict [])]);
            ("relations", JDict []);
            ("temporal_relations", JDict [])]%string
           initial_script).
  reflexivity.
Defined.

(** ** Blank node labels *)

(** X18.  The label of a blank node tells its role and its identifier: two
    labels made by [bnode] from role tags of the converter are equal only if
    the tags are the same and the identifiers are the same.  Without a tag
    the label is the bare identifier. *)
Theorem bnode_label_reads_back (p p' a a' : string) :
  (In p bnode_prefixes -> In p' bnode_prefixes ->
   bnode_label p a = bnode_label p' a' -> p = p' /\ a = a')
  /\ bnode_label EmptyString a = a.
Proof.
  split; [|reflexivity].
  unfold bnode_prefixes. cbn [In].
  intros [<-|[<-|[<-|[<-|[<-|[<-|[<-|[]]]]]]]]
         [<-|[<-|[<-|[<-|[<-|[<-|[<-|[]]]]]]]];
    cbn; intros H; first [discriminate H | split; congruence].
Qed.

Lemma bnode_label_reads_back_witness :
  "ARG"%string = "ARG"%string /\ "0Zk3v"%string = "0Zk3v"%string.
Proof.
  apply (proj1 (bnode_label_reads_back "ARG" "ARG" "0Zk3v" "0Zk3v")).
  - simpl. tauto.
  - simpl. tauto.
  - reflexivity.
Defined.

(** ** The parent of a blank node *)





Section Links.

Variable uuid : nat -> string.





End Links.



